(** * Library catalog controllers (express-playground)

    A shallow embedding of the four entity controllers
    (controllers/genreController.js, authorController.js,
    bookController.js, bookInstanceController.js), of the two schemas
    the sources contain (models/genre.js, models/bookinstance.js) and
    of the validation chains the controllers declare.

    - The store is the four collections, each a finite map from [_id]
      to the fields of the document.
    - A handler is a function from the store to the new store and the
      list of the calls it makes on [res] and on [next], in program
      order.  The first call on [res] is the response the client
      receives; several handlers go on after it (a redirect that is
      not followed by [return]), and the list shows it.
    - A rejected promise inside [asyncHandler] becomes a call of
      [next] with the error.
    - The primitives of the external libraries (the sanitizers and
      validators of validator.js, the collation of the duplicate
      check, the ObjectId cast) are the fields of the record
      [Library].  Every property is proved for an arbitrary
      [Library]; [ascii_lib] is a small concrete one, on ASCII text,
      on which the handlers can be evaluated.
    - Templates are not run: rendering is the call [RenderFile] with
      the view and its locals. *)

From Stdlib Require Import String Ascii ZArith List Bool.
From stdpp Require Import gmap strings list fin_maps sorting.

Local Open Scope string_scope.
Local Open Scope nat_scope.

(** Identifiers are opaque strings (the hexadecimal form of an
    ObjectId); dates are milliseconds since the epoch. *)
Abbreviation Id := string (only parsing).
Abbreviation Date := Z (only parsing).

(** ** External library primitives *)

Record Library := {
  trim : string → string;              (* validator.js trim *)
  escape : string → string;            (* validator.js escape *)
  isAlphanumeric : string → bool;      (* validator.js isAlphanumeric *)
  isISO8601 : string → bool;           (* validator.js isISO8601 *)
  toDate : string → option Date;       (* validator.js toDate; null when unparseable *)
  collation_eq : string → string → bool; (* equality under { locale: "en", strength: 2 } *)
  castObjectId : string → option Id;   (* mongoose cast to ObjectId; fails on malformed text *)
}.

(** *** A concrete library on ASCII text *)

Definition is_space (c : ascii) : bool :=
  let n := nat_of_ascii c in
  (n =? 32) || ((9 <=? n) && (n <=? 13)).

Fixpoint ltrim (s : string) : string :=
  match s with
  | String c r => if is_space c then ltrim r else s
  | EmptyString => EmptyString
  end.

Fixpoint rev_string (acc s : string) : string :=
  match s with
  | EmptyString => acc
  | String c r => rev_string (String c acc) r
  end.

Definition ascii_trim (s : string) : string :=
  rev_string "" (ltrim (rev_string "" (ltrim s))).

Definition escape_char (c : ascii) : string :=
  let n := nat_of_ascii c in
  if n =? 38 then "&amp;"
  else if n =? 34 then "&quot;"
  else if n =? 39 then "&#x27;"
  else if n =? 60 then "&lt;"
  else if n =? 62 then "&gt;"
  else if n =? 47 then "&#x2F;"
  else if n =? 92 then "&#x5C;"
  else if n =? 96 then "&#96;"
  else String c "".

Fixpoint ascii_escape (s : string) : string :=
  match s with
  | EmptyString => EmptyString
  | String c r => escape_char c ++ ascii_escape r
  end.

Definition is_digit (c : ascii) : bool :=
  let n := nat_of_ascii c in (48 <=? n) && (n <=? 57).

Definition is_alpha (c : ascii) : bool :=
  let n := nat_of_ascii c in
  ((65 <=? n) && (n <=? 90)) || ((97 <=? n) && (n <=? 122)).

Definition is_hex (c : ascii) : bool :=
  let n := nat_of_ascii c in
  is_digit c || ((65 <=? n) && (n <=? 70)) || ((97 <=? n) && (n <=? 102)).

Fixpoint string_forall (p : ascii → bool) (s : string) : bool :=
  match s with
  | EmptyString => true
  | String c r => p c && string_forall p r
  end.

Definition ascii_isAlphanumeric (s : string) : bool :=
  negb (String.eqb s "") && string_forall (λ c, is_digit c || is_alpha c) s.

Definition lower_char (c : ascii) : ascii :=
  let n := nat_of_ascii c in
  if (65 <=? n) && (n <=? 90) then ascii_of_nat (n + 32) else c.

Fixpoint lower (s : string) : string :=
  match s with
  | EmptyString => EmptyString
  | String c r => String (lower_char c) (lower r)
  end.

Definition ascii_collation_eq (a b : string) : bool :=
  String.eqb (lower a) (lower b).

(** Calendar dates [YYYY-MM-DD] only. *)
Definition ascii_isISO8601 (s : string) : bool :=
  match s with
  | String y1 (String y2 (String y3 (String y4 (String d1 (String m1 (String m2
      (String d2 (String a1 (String a2 EmptyString))))))))) =>
      is_digit y1 && is_digit y2 && is_digit y3 && is_digit y4
      && (nat_of_ascii d1 =? 45) && is_digit m1 && is_digit m2
      && (nat_of_ascii d2 =? 45) && is_digit a1 && is_digit a2
  | _ => false
  end.

Fixpoint digits_value (acc : Z) (s : string) : Z :=
  match s with
  | EmptyString => acc
  | String c r =>
      if is_digit c
      then digits_value (acc * 10 + Z.of_nat (nat_of_ascii c - 48)) r
      else digits_value acc r
  end.

Definition ascii_toDate (s : string) : option Date :=
  if ascii_isISO8601 s then Some (digits_value 0 s) else None.

(** Twenty-four hexadecimal digits. *)
Definition ascii_castObjectId (s : string) : option Id :=
  if (String.length s =? 24) && string_forall is_hex s
  then Some (lower s) else None.

Definition ascii_lib : Library := {|
  trim := ascii_trim;
  escape := ascii_escape;
  isAlphanumeric := ascii_isAlphanumeric;
  isISO8601 := ascii_isISO8601;
  toDate := ascii_toDate;
  collation_eq := ascii_collation_eq;
  castObjectId := ascii_castObjectId;
|}.

(** ** Request data *)

(** The [genre] field of the book form: absent, one value, or several. *)
Inductive GenreField :=
| GAbsent
| GScalar (g : string)
| GArray (gs : list string).

(** [req.body]: the fields the controllers read.  A text field that
    was not submitted is [None] (JavaScript [undefined]).  The delete
    forms carry the identifier of the document in a hidden field
    ([id], or [authorid] on the author form); the handlers assume it is
    there ("Assume the post has valid id"), so it is an identifier
    here. *)
Record Body := {
  b_name : option string;
  b_first_name : option string;
  b_family_name : option string;
  b_date_of_birth : option string;
  b_date_of_death : option string;
  b_title : option string;
  b_author : option string;
  b_summary : option string;
  b_isbn : option string;
  b_genre : GenreField;
  b_book : option string;
  b_imprint : option string;
  b_status : option string;
  b_due_back : option string;
  b_id : Id;
  b_authorid : Id;
}.

(** [req.params.id] and [req.body].  The identifier of the request
    path is a well-formed identifier, whether or not a document has
    it; a path segment that is not an identifier at all is outside
    this type. *)
Record Req := { params_id : Id; body : Body }.

(** What a handler reads from its environment: the ObjectId that
    [new Model(...)] generates and the clock ([Date.now]). *)
Record Env := { fresh_id : Id; now : Date }.

(** ** Validation engine *)

Record FieldError := { err_path : string; err_msg : string }.

(** A field after an [optional({ values: "falsy" })] date chain. *)
Inductive DateField :=
| DUndefined            (* not submitted *)
| DEmpty                (* submitted empty, left as it is *)
| DNull                 (* toDate of unparseable text *)
| DDate (d : Date).

Section Validation.
Variable L : Library.

(** Standard sanitizers and validators work on the string form of
    the value; an absent field reads as the empty string. *)
Definition toString (v : option string) : string := default "" v.

Definition check (ok : bool) (path msg : string) : list FieldError :=
  if ok then [] else [{| err_path := path; err_msg := msg |}].

(** [body(path, msg).trim().isLength({ min }).escape()] *)
Definition text_chain (path msg : string) (min : nat) (v : option string)
  : string * list FieldError :=
  let v1 := trim L (toString v) in
  (escape L v1, check (min <=? String.length v1) path msg).

(** [body(path).trim().isLength({ min: 1 }).escape().withMessage(m1)
      .isAlphanumeric().withMessage(m2)] *)
Definition name_chain (path m1 m2 : string) (v : option string)
  : string * list FieldError :=
  let v1 := trim L (toString v) in
  let v2 := escape L v1 in
  (v2, (check (1 <=? String.length v1) path m1
          ++ check (isAlphanumeric L v2) path m2)%list).

(** [body(path).escape()] *)
Definition escape_chain (v : option string) : string :=
  escape L (toString v).

(** [body(path, msg).optional({ values: "falsy" }).isISO8601().toDate()] *)
Definition date_chain (path msg : string) (v : option string)
  : DateField * list FieldError :=
  match v with
  | None => (DUndefined, [])
  | Some s =>
      if String.eqb s "" then (DEmpty, [])
      else (match toDate L s with Some d => DDate d | None => DNull end,
            check (isISO8601 L s) path msg)
  end.

(** The first middleware of the book forms: convert the genre to an
    array. *)
Definition genre_to_array (g : GenreField) : list string :=
  match g with
  | GArray gs => gs
  | GAbsent => []
  | GScalar x => [x]
  end.

(** [body("genre.*").escape()] *)
Definition genre_chain (gs : list string) : list string :=
  map (escape L) gs.
End Validation.

(** ** Data model *)

(** A document: its [_id] and its fields. *)
Record Doc (A : Type) := mkDoc { doc_id : Id; doc_data : A }.
Arguments mkDoc {A} _ _.
Arguments doc_id {A} _.
Arguments doc_data {A} _.

(** A field of a document that may be missing or [null]. *)
Inductive Slot (A : Type) :=
| Unset
| IsNull
| Value (a : A).
Arguments Unset {A}.
Arguments IsNull {A}.
Arguments Value {A} _.

(** models/genre.js *)
Record GenreData := { g_name : string }.

(** Modelled from the spec: the fields of an Author (models/author.js
    is not among the sources): first_name, family_name, and the two
    optional dates. *)
Record AuthorData := {
  a_first_name : string;
  a_family_name : string;
  a_date_of_birth : Slot Date;
  a_date_of_death : Slot Date;
}.

(** Modelled from the spec: the fields of a Book (models/book.js is
    not among the sources): title, summary, isbn, a reference to one
    Author and a collection of references to Genres. *)
Record BookData := {
  bk_title : string;
  bk_author : Id;
  bk_summary : string;
  bk_isbn : string;
  bk_genre : list Id;
}.

(** models/bookinstance.js.  [bi_book] is [None] when the path is not
    set; [bi_due_back] is [None] for [null]. *)
Record BookInstanceData := {
  bi_book : option Id;
  bi_imprint : string;
  bi_status : string;
  bi_due_back : option Date;
}.

(** The four collections, keyed by [_id]. *)
Record Store := {
  books : gmap string BookData;
  authors : gmap string AuthorData;
  genres : gmap string GenreData;
  bookinstances : gmap string BookInstanceData;
}.

Definition empty_store : Store :=
  {| books := ∅; authors := ∅; genres := ∅; bookinstances := ∅ |}.

(** A model: its collection, the validators its schema runs on
    [save()], and the fields an update sets ([upd old new] is the
    stored document after [findByIdAndUpdate] with [new]: a path that
    is not set in [new] keeps its old value). *)
Record Model (A : Type) := {
  coll : Store → gmap string A;
  set_coll : gmap string A → Store → Store;
  validate : A → bool;
  upd : A → A → A;
}.
Arguments coll {A} _ _.
Arguments set_coll {A} _ _ _.
Arguments validate {A} _ _.
Arguments upd {A} _ _ _.

Definition nonempty (s : string) : bool := negb (String.eqb s "").

(** [name: { type: String, required: true, minLength: 3, maxLength: 100 }] *)
Definition Genre : Model GenreData := {|
  coll := genres;
  set_coll := λ m s, {| books := books s; authors := authors s; genres := m;
                        bookinstances := bookinstances s |};
  validate := λ g, nonempty (g_name g) && (3 <=? String.length (g_name g))
                   && (String.length (g_name g) <=? 100);
  upd := λ _ new, new;
|}.

Definition upd_slot {A} (old new : Slot A) : Slot A :=
  match new with Unset => old | _ => new end.

(** Modelled from the spec: the Author schema requires the two names
    ("both non-empty"); the dates are optional. *)
Definition Author : Model AuthorData := {|
  coll := authors;
  set_coll := λ m s, {| books := books s; authors := m; genres := genres s;
                        bookinstances := bookinstances s |};
  validate := λ a, nonempty (a_first_name a) && nonempty (a_family_name a);
  upd := λ old new,
    {| a_first_name := a_first_name new;
       a_family_name := a_family_name new;
       a_date_of_birth := upd_slot (a_date_of_birth old) (a_date_of_birth new);
       a_date_of_death := upd_slot (a_date_of_death old) (a_date_of_death new) |};
|}.

(** Modelled from the spec: the Book schema requires title, summary,
    isbn ("non-empty string") and the author reference. *)
Definition Book : Model BookData := {|
  coll := books;
  set_coll := λ m s, {| books := m; authors := authors s; genres := genres s;
                        bookinstances := bookinstances s |};
  validate := λ b, nonempty (bk_title b) && nonempty (bk_author b)
                   && nonempty (bk_summary b) && nonempty (bk_isbn b);
  upd := λ _ new, new;
|}.

Definition status_enum : list string :=
  ["Available"; "Maintenance"; "Loaned"; "Reserved"].

(** [book: { type: Schema.ObjectId, ref: "Book", required: true }],
    [imprint: { type: String, required: true }],
    [status: { type: String, required: true, enum: [...] }]. *)
Definition BookInstance : Model BookInstanceData := {|
  coll := bookinstances;
  set_coll := λ m s, {| books := books s; authors := authors s; genres := genres s;
                        bookinstances := m |};
  validate := λ i, bool_decide (is_Some (bi_book i)) && nonempty (bi_imprint i)
                   && nonempty (bi_status i)
                   && bool_decide (bi_status i ∈ status_enum);
  upd := λ old new,
    {| bi_book := match bi_book new with Some b => Some b | None => bi_book old end;
       bi_imprint := bi_imprint new;
       bi_status := bi_status new;
       bi_due_back := bi_due_back new |};
|}.

(** The [url] virtuals.  Those of Genre and BookInstance are in the
    sources. *)
Definition genre_url (g : Doc GenreData) : string :=
  "/catalog/genre/" ++ doc_id g.
Definition bookinstance_url (i : Doc BookInstanceData) : string :=
  "/catalog/bookinstance/" ++ doc_id i.

(** Modelled from the spec: the [url] virtuals of Book and Author
    (their models are not among the sources), after the path table
    [/catalog/{kind}/{id}]. *)
Definition book_url (b : Doc BookData) : string :=
  "/catalog/book/" ++ doc_id b.
Definition author_url (a : Doc AuthorData) : string :=
  "/catalog/author/" ++ doc_id a.

(** ** Documents as the views receive them *)

(** A Book found with a projection ("title summary", "title",
    "title author"). *)
Record BookProj := {
  bp_id : Id;
  bp_title : string;
  bp_summary : option string;
}.

(** A Book after [populate("author").populate("genre")]. *)
Record PopulatedBook := {
  pb_id : Id;
  pb_title : string;
  pb_author : option (Doc AuthorData);
  pb_summary : string;
  pb_isbn : string;
  pb_genre : list (Doc GenreData);
}.

(** A BookInstance after [populate("book")]. *)
Record PopulatedInstance := {
  pi_id : Id;
  pi_book : option (Doc BookData);
  pi_imprint : string;
  pi_status : string;
  pi_due_back : option Date;
}.

(** The values handed to a template. *)
Inductive Val :=
| VText (s : string)
| VCount (n : nat)
| VNull
| VErrors (es : list FieldError)
| VId (i : Id)
| VGenre (g : option (Doc GenreData))
| VGenres (gs : list (Doc GenreData * bool))     (* with the [checked] mark *)
| VAuthor (a : option (Doc AuthorData))
| VAuthors (l : list (Doc AuthorData))
| VBook (b : Doc BookData)
| VBookP (b : option PopulatedBook)
| VBookList (l : list BookProj)
| VBookDocs (l : list (Doc BookData))
| VInstance (i : Doc BookInstanceData)
| VInstanceP (i : option PopulatedInstance)
| VInstances (l : list (Doc BookInstanceData)).

(** ** Handlers *)

Inductive Err :=
| HttpError (status : nat) (message : string)  (* [new Error(message)] with [err.status] *)
| ValidationError (model : string)             (* a schema validator rejected the document *)
| DuplicateKey (id : Id)
| TypeError (message : string).

(** The calls a handler makes: [res.redirect(url)];
    [ejs.renderFile(view, locals, cb)], whose callback puts the result
    in the layout under [layout_title]; [next(err)]. *)
Inductive Action :=
| Redirect (url : string)
| RenderFile (view : string) (locals : list (string * Val)) (layout_title : string)
| Next (e : Err).

Inductive Res (A : Type) :=
| Ret (a : A)
| Throw (e : Err).
Arguments Ret {A} _.
Arguments Throw {A} _.

(** The body of an [async] handler: it reads and writes the store,
    makes calls on [res] and [next], and returns or throws. *)
Definition M (A : Type) : Type := Store → Store * list Action * Res A.

Definition Handler : Type := Store → Store * list Action.

Definition ret {A} (a : A) : M A := λ s, (s, [], Ret a).

Definition bind {A B} (m : M A) (f : A → M B) : M B := λ s,
  match m s with
  | (s1, t1, Ret a) =>
      match f a s1 with
      | (s2, t2, r) => (s2, (t1 ++ t2)%list, r)
      end
  | (s1, t1, Throw e) => (s1, t1, Throw e)
  end.

#[global] Instance M_ret : MRet M := @ret.
#[global] Instance M_bind : MBind M := λ A B f m, bind m f.

Definition throw {A} (e : Err) : M A := λ s, (s, [], Throw e).

Definition call (a : Action) : M unit := λ s, (s, [a], Ret tt).

Definition redirect (url : string) : M unit := call (Redirect url).
Definition renderFile (view : string) (locals : list (string * Val))
  (layout_title : string) : M unit := call (RenderFile view locals layout_title).
Definition next (e : Err) : M unit := call (Next e).

(** [asyncHandler]: a rejection of the handler's promise is passed to
    [next]. *)
Definition asyncHandler (h : M unit) : Handler := λ s,
  match h s with
  | (s', t, Ret _) => (s', t)
  | (s', t, Throw e) => (s', (t ++ [Next e])%list)
  end.

(** *** Store queries *)

Definition docs {A} (Mo : Model A) (s : Store) : list (Doc A) :=
  map (λ p, mkDoc (fst p) (snd p)) (map_to_list (coll Mo s)).

Definition findById {A} (Mo : Model A) (id : Id) : M (option (Doc A)) := λ s,
  (s, [], Ret (mkDoc id <$> coll Mo s !! id)).

Definition find {A} (Mo : Model A) (p : Doc A → bool) : M (list (Doc A)) := λ s,
  (s, [], Ret (List.filter p (docs Mo s))).

Definition findOne {A} (Mo : Model A) (p : Doc A → bool) : M (option (Doc A)) := λ s,
  (s, [], Ret (List.find p (docs Mo s))).

Definition countDocuments {A} (Mo : Model A) (p : Doc A → bool) : M nat := λ s,
  (s, [], Ret (length (List.filter p (docs Mo s)))).

(** [doc.save()] of a new document: the schema validators run first;
    the insertion fails on an [_id] that is already there. *)
Definition save {A} (Mo : Model A) (name : string) (d : Doc A) : M unit := λ s,
  if negb (validate Mo (doc_data d)) then (s, [], Throw (ValidationError name))
  else match coll Mo s !! doc_id d with
       | Some _ => (s, [], Throw (DuplicateKey (doc_id d)))
       | None => (set_coll Mo (<[doc_id d := doc_data d]> (coll Mo s)) s, [], Ret tt)
       end.

Definition findByIdAndRemove {A} (Mo : Model A) (id : Id) : M unit := λ s,
  (set_coll Mo (delete id (coll Mo s)) s, [], Ret tt).

(** [Model.findByIdAndUpdate(id, doc)]: no validators, no insertion
    when [id] is not there; resolves to the document as it was before
    the update, or to [null]. *)
Definition findByIdAndUpdate {A} (Mo : Model A) (id : Id) (d : Doc A)
  : M (option (Doc A)) := λ s,
  match coll Mo s !! id with
  | Some old =>
      (set_coll Mo (<[id := upd Mo old (doc_data d)]> (coll Mo s)) s, [],
       Ret (Some (mkDoc id old)))
  | None => (s, [], Ret None)
  end.

(** ** Controllers *)

Section Controllers.
Variable L : Library.

Definition all {A} (d : Doc A) : bool := true.

(** [errors.isEmpty()] *)
Definition isEmpty (errors : list FieldError) : bool :=
  match errors with [] => true | _ => false end.

Definition project_title_summary (b : Doc BookData) : BookProj :=
  {| bp_id := doc_id b; bp_title := bk_title (doc_data b);
     bp_summary := Some (bk_summary (doc_data b)) |}.

Definition project_title (b : Doc BookData) : BookProj :=
  {| bp_id := doc_id b; bp_title := bk_title (doc_data b); bp_summary := None |}.

(** The filters [{ genre: id }], [{ author: id }], [{ book: id }],
    [{ status: "Available" }]. *)
Definition has_genre (id : Id) (b : Doc BookData) : bool :=
  bool_decide (id ∈ bk_genre (doc_data b)).
Definition has_author (id : Id) (b : Doc BookData) : bool :=
  String.eqb (bk_author (doc_data b)) id.
Definition of_book (id : Id) (i : Doc BookInstanceData) : bool :=
  bool_decide (bi_book (doc_data i) = Some id).
Definition is_available (i : Doc BookInstanceData) : bool :=
  String.eqb (bi_status (doc_data i)) "Available".

(** [populate]: a reference is replaced by the document it names, or
    by [null]; in a collection of references the missing ones are
    left out. *)
Definition populate_book (b : Doc BookData) : M PopulatedBook := λ s,
  (s, [], Ret
    {| pb_id := doc_id b;
       pb_title := bk_title (doc_data b);
       pb_author := mkDoc (bk_author (doc_data b))
                      <$> authors s !! bk_author (doc_data b);
       pb_summary := bk_summary (doc_data b);
       pb_isbn := bk_isbn (doc_data b);
       pb_genre := omap (λ g, mkDoc g <$> genres s !! g) (bk_genre (doc_data b)) |}).

Definition populate_instance (i : Doc BookInstanceData) : M PopulatedInstance := λ s,
  (s, [], Ret
    {| pi_id := doc_id i;
       pi_book := b ← bi_book (doc_data i); mkDoc b <$> books s !! b;
       pi_imprint := bi_imprint (doc_data i);
       pi_status := bi_status (doc_data i);
       pi_due_back := bi_due_back (doc_data i) |}).

Definition findBookPopulated (id : Id) : M (option PopulatedBook) :=
  b ← findById Book id;
  match b with
  | Some b => p ← populate_book b; mret (Some p)
  | None => mret None
  end.

Definition findInstancePopulated (id : Id) : M (option PopulatedInstance) :=
  i ← findById BookInstance id;
  match i with
  | Some i => p ← populate_instance i; mret (Some p)
  | None => mret None
  end.

(** *** genreController.js *)

(** The chain of [genre_create_post] and [genre_update_post]. *)
Definition genre_chains (b : Body) : string * list FieldError :=
  text_chain L "name" "Genre name must contain at least 3 characters" 3 (b_name b).

(** Display detail page for a specific Genre. *)
Definition genre_detail (req : Req) : Handler := asyncHandler (
  genre ← findById Genre (params_id req);
  booksInGenre ← find Book (has_genre (params_id req));
  match genre with
  | None => next (HttpError 404 "Genre not found")
  | Some _ =>
      renderFile "views/genre-detail.ejs"
        [("title", VText "Genre Detail"); ("genre", VGenre genre);
         ("genre_books", VBookList (map project_title_summary booksInGenre))]
        "Genre Detail"
  end).

(** Handle Genre create on POST. *)
Definition genre_create_post (env : Env) (req : Req) : Handler :=
  let v := genre_chains (body req) in
  let errors := v.2 in
  asyncHandler (
    let genre := mkDoc (fresh_id env) {| g_name := v.1 |} in
    if negb (isEmpty errors) then
      renderFile "views/genre-form.ejs"
        [("title", VText "Create Genre"); ("genre", VGenre (Some genre));
         ("errors", VErrors errors)]
        "Create Genre"
    else
      genreExists ← findOne Genre (λ g, collation_eq L (g_name (doc_data g)) v.1);
      match genreExists with
      | Some g => redirect (genre_url g)
      | None => save Genre "Genre" genre;; redirect "catalog/genres"
      end).

(** Display Genre delete form on GET. *)
Definition genre_delete_get (req : Req) : Handler := asyncHandler (
  genre ← findById Genre (params_id req);
  booksInGenre ← find Book (has_genre (params_id req));
  (if genre is None then redirect "/catalog/genres" else mret tt);;
  renderFile "views/genre-delete.ejs"
    [("title", VText "Delete Genre"); ("genre", VGenre genre);
     ("genre_books", VBookList (map project_title_summary booksInGenre))]
    "Delete Genre").

(** Handle Genre delete on POST. *)
Definition genre_delete_post (req : Req) : Handler := asyncHandler (
  genre ← findById Genre (params_id req);
  booksInGenre ← find Book (has_genre (params_id req));
  if 0 <? length booksInGenre then
    renderFile "views/genre-delete.ejs"
      [("title", VText "Delete Genre"); ("genre", VGenre genre);
       ("genre_books", VBookList (map project_title_summary booksInGenre))]
      "Delete Genre"
  else
    findByIdAndRemove Genre (b_id (body req));;
    redirect "/catalog/genres").

(** Display Genre update form on GET. *)
Definition genre_update_get (req : Req) : Handler := asyncHandler (
  genre ← findById Genre (params_id req);
  match genre with
  | None => next (HttpError 404 "Genre not found")
  | Some _ =>
      renderFile "views/genre-form.ejs"
        [("title", VText "Update Genre"); ("genre", VGenre genre)]
        "Update Genre"
  end).

(** Handle Genre update on POST. *)
Definition genre_update_post (req : Req) : Handler :=
  let v := genre_chains (body req) in
  let errors := v.2 in
  asyncHandler (
    let genre := mkDoc (params_id req) {| g_name := v.1 |} in
    if negb (isEmpty errors) then
      renderFile "views/genre-form.ejs"
        [("title", VText "Update Genre"); ("genre", VGenre (Some genre));
         ("errors", VErrors errors)]
        "Update Genre"
    else
      findByIdAndUpdate Genre (params_id req) genre;;
      redirect (genre_url genre)).

(** *** authorController.js *)

(** [req.body] after the chains of the author forms. *)
Record AuthorFields := {
  af_first_name : string;
  af_family_name : string;
  af_date_of_birth : DateField;
  af_date_of_death : DateField;
}.

(** The chains of [author_create_post] and [author_update_post]. *)
Definition author_chains (b : Body) : AuthorFields * list FieldError :=
  let fn := name_chain L "first_name" "First name must be specified."
              "First name has non-alphanumeric characters." (b_first_name b) in
  let gn := name_chain L "family_name" "Family name must be specified."
              "Family name has non-alphanumeric characters." (b_family_name b) in
  let db := date_chain L "date_of_birth" "Invalid date of birth" (b_date_of_birth b) in
  let dd := date_chain L "date_of_death" "Invalid date of death" (b_date_of_death b) in
  ({| af_first_name := fn.1; af_family_name := gn.1;
      af_date_of_birth := db.1; af_date_of_death := dd.1 |},
   (fn.2 ++ gn.2 ++ db.2 ++ dd.2)%list).

(** A date path of a new document: [undefined] leaves it unset, the
    empty string and [null] make it [null]. *)
Definition date_slot (d : DateField) : Slot Date :=
  match d with
  | DUndefined => Unset
  | DEmpty | DNull => IsNull
  | DDate d => Value d
  end.

(** [new Author({ first_name, family_name, date_of_birth, date_of_death, _id })] *)
Definition new_Author (id : Id) (f : AuthorFields) : Doc AuthorData :=
  mkDoc id {| a_first_name := af_first_name f;
              a_family_name := af_family_name f;
              a_date_of_birth := date_slot (af_date_of_birth f);
              a_date_of_death := date_slot (af_date_of_death f) |}.

(** Display detail page for a specific Author. *)
Definition author_detail (req : Req) : Handler := asyncHandler (
  author ← findById Author (params_id req);
  allBooksByAuthor ← find Book (has_author (params_id req));
  match author with
  | None => next (HttpError 404 "Author not found")
  | Some _ =>
      renderFile "views/author-detail.ejs"
        [("title", VText "Author Detail"); ("author", VAuthor author);
         ("author_books", VBookList (map project_title_summary allBooksByAuthor))]
        "Author Detail"
  end).

(** Handle Author create on POST. *)
Definition author_create_post (env : Env) (req : Req) : Handler :=
  let v := author_chains (body req) in
  let errors := v.2 in
  asyncHandler (
    let author := new_Author (fresh_id env) v.1 in
    if negb (isEmpty errors) then
      renderFile "views/author-form.ejs"
        [("title", VText "Create Author"); ("author", VAuthor (Some author));
         ("errors", VErrors errors)]
        "Create Author"
    else
      save Author "Author" author;;
      redirect "/catalog/authors").

(** Display Author delete form on GET. *)
Definition author_delete_get (req : Req) : Handler := asyncHandler (
  author ← findById Author (params_id req);
  allBooksByAuthor ← find Book (has_author (params_id req));
  (if author is None then redirect "/catalog/authors" else mret tt);;
  renderFile "views/author-delete.ejs"
    [("title", VText "Delete Author"); ("author", VAuthor author);
     ("author_books", VBookList (map project_title_summary allBooksByAuthor))]
    "Delete Author").

(** Handle Author delete on POST. *)
Definition author_delete_post (req : Req) : Handler := asyncHandler (
  author ← findById Author (params_id req);
  allBooksByAuthor ← find Book (has_author (params_id req));
  if 0 <? length allBooksByAuthor then
    renderFile "views/author-delete.ejs"
      [("title", VText "Delete Author"); ("author", VAuthor author);
       ("author_books", VBookList (map project_title_summary allBooksByAuthor))]
      "Delete Author"
  else
    findByIdAndRemove Author (b_authorid (body req));;
    redirect "/catalog/authors").

(** Display Author update form on GET. *)
Definition author_update_get (req : Req) : Handler := asyncHandler (
  author ← findById Author (params_id req);
  match author with
  | None => next (HttpError 404 "Author not found")
  | Some _ =>
      renderFile "views/author-form.ejs"
        [("title", VText "Update Author"); ("errors", VNull)]
        "Update Author"
  end).

(** Handle Author update on POST. *)
Definition author_update_post (req : Req) : Handler :=
  let v := author_chains (body req) in
  let errors := v.2 in
  asyncHandler (
    let author := new_Author (params_id req) v.1 in
    if negb (isEmpty errors) then
      renderFile "views/author-form.ejs"
        [("title", VText "Update Author"); ("author", VAuthor (Some author));
         ("errors", VErrors errors)]
        "Update Author"
    else
      findByIdAndUpdate Author (params_id req) author;;
      redirect (author_url author)).

(** *** bookController.js *)

(** The home page: the counts of books, book instances, available
    book instances, authors and genres. *)
Definition index : Handler := asyncHandler (
  numBooks ← countDocuments Book all;
  numBookInstances ← countDocuments BookInstance all;
  numAvailableBookInstances ← countDocuments BookInstance is_available;
  numAuthors ← countDocuments Author all;
  numGenres ← countDocuments Author all;
  renderFile "views/index.ejs"
    [("title", VText "Local Library Home"); ("book_count", VCount numBooks);
     ("book_instance_count", VCount numBookInstances);
     ("book_instance_available_count", VCount numAvailableBookInstances);
     ("author_count", VCount numAuthors);
     ("genre_count", VCount numGenres)]
    "Local Library Home").

(** [req.body] after the chains of the book forms. *)
Record BookFields := {
  bf_title : string;
  bf_author : string;
  bf_summary : string;
  bf_isbn : string;
  bf_genre : list string;
}.

(** The middleware of [book_create_post] and [book_update_post]: the
    genre is converted to an array, then the chains run. *)
Definition book_chains (b : Body) : BookFields * list FieldError :=
  let genre := genre_to_array (b_genre b) in
  let t := text_chain L "title" "Title must not be empty." 1 (b_title b) in
  let a := text_chain L "author" "Author must not be empty." 1 (b_author b) in
  let su := text_chain L "summary" "Summary must not be empty." 1 (b_summary b) in
  let i := text_chain L "isbn" "ISBN must not be empty" 1 (b_isbn b) in
  ({| bf_title := t.1; bf_author := a.1; bf_summary := su.1; bf_isbn := i.1;
      bf_genre := genre_chain L genre |},
   (t.2 ++ a.2 ++ su.2 ++ i.2)%list).

(** [new Book({ title, author, summary, isbn, genre, _id })] *)
Definition new_Book (id : Id) (f : BookFields) : Doc BookData :=
  mkDoc id {| bk_title := bf_title f; bk_author := bf_author f;
              bk_summary := bf_summary f; bk_isbn := bf_isbn f;
              bk_genre := bf_genre f |}.

(** Display detail page for a specific book. *)
Definition book_detail (req : Req) : Handler := asyncHandler (
  book ← findBookPopulated (params_id req);
  bookInstances ← find BookInstance (of_book (params_id req));
  match book with
  | None => next (HttpError 404 "Book not found")
  | Some b =>
      renderFile "views/book-detail.ejs"
        [("title", VText (pb_title b)); ("book", VBookP book);
         ("book_instances", VInstances bookInstances)]
        "Book Detail"
  end).

(** Handle book create on POST. *)
Definition book_create_post (env : Env) (req : Req) : Handler :=
  let v := book_chains (body req) in
  let errors := v.2 in
  asyncHandler (
    let book := new_Book (fresh_id env) v.1 in
    if negb (isEmpty errors) then
      allAuthors ← find Author all;
      allGenres ← find Genre all;
      let genres := map (λ genre,
        (genre, bool_decide (doc_id genre ∈ bk_genre (doc_data book)))) allGenres in
      renderFile "views/book-form.ejs"
        [("ttitle", VText "Create Book"); ("authors", VAuthors allAuthors);
         ("genres", VGenres genres); ("book", VBook book);
         ("errors", VErrors errors)]
        "Create Book"
    else
      save Book "Book" book;;
      redirect (book_url book)).

(** Display book delete form on GET. *)
Definition book_delete_get (req : Req) : Handler := asyncHandler (
  book ← findBookPopulated (params_id req);
  bookInstances ← find BookInstance (of_book (params_id req));
  (if book is None then redirect "/catalog/books" else mret tt);;
  renderFile "views/book-delete.ejs"
    [("title", VText "Remove Book"); ("book", VBookP book);
     ("book_instances", VInstances bookInstances); ("errors", VNull)]
    "Remove Book").

(** Handle book delete on POST. *)
Definition book_delete_post (req : Req) : Handler := asyncHandler (
  book ← findBookPopulated (params_id req);
  bookInstances ← find BookInstance (of_book (params_id req));
  (if book is None then redirect "/catalog/books" else mret tt);;
  if 0 <? length bookInstances then
    renderFile "views/book-delete.ejs"
      [("title", VText "Remove Book"); ("book", VBookP book);
       ("book_instances", VInstances bookInstances); ("errors", VNull)]
      "Remove Book"
  else
    findByIdAndRemove Book (b_id (body req));;
    redirect "/catalog/books").

(** Display book update form on GET. *)
Definition book_update_get (req : Req) : Handler := asyncHandler (
  book ← findBookPopulated (params_id req);
  allAuthors ← find Author all;
  allGenres ← find Genre all;
  match book with
  | None => next (HttpError 404 "Book not found")
  | Some b =>
      let genres := map (λ genre,
        (genre, bool_decide (doc_id genre ∈ map doc_id (pb_genre b)))) allGenres in
      renderFile "views/book-form.ejs"
        [("title", VText "Update Book"); ("authors", VAuthors allAuthors);
         ("genres", VGenres genres); ("book", VBookP book); ("errors", VNull)]
        "Create Book"
  end).

(** Handle book update on POST. *)
Definition book_update_post (req : Req) : Handler :=
  let v := book_chains (body req) in
  let errors := v.2 in
  asyncHandler (
    let book := new_Book (params_id req) v.1 in
    if negb (isEmpty errors) then
      allAuthors ← find Author all;
      allGenres ← find Genre all;
      let genres := map (λ genre,
        (genre, bool_decide (doc_id genre ∈ bk_genre (doc_data book)))) allGenres in
      renderFile "views/book-form.ejs"
        [("title", VText "Update Book"); ("authors", VAuthors allAuthors);
         ("genres", VGenres genres); ("book", VBook book);
         ("errors", VErrors errors)]
        "Create Book"
    else
      thebook ← findByIdAndUpdate Book (params_id req) book;
      match thebook with
      | Some b => redirect (book_url b)
      | None => throw (TypeError "Cannot read properties of null (reading 'url')")
      end).

(** *** bookInstanceController.js *)

(** [req.body] after the chains of the book instance forms. *)
Record InstanceFields := {
  if_book : string;
  if_imprint : string;
  if_status : string;
  if_due_back : DateField;
}.

(** The chains of [bookinstance_create_post] and
    [bookinstance_update_post]. *)
Definition bookinstance_chains (b : Body) : InstanceFields * list FieldError :=
  let bk := text_chain L "book" "Book must be specified" 1 (b_book b) in
  let im := text_chain L "imprint" "Imprint must be specified" 1 (b_imprint b) in
  let st := escape_chain L (b_status b) in
  let du := date_chain L "due_back" "Invalid date" (b_due_back b) in
  ({| if_book := bk.1; if_imprint := im.1; if_status := st; if_due_back := du.1 |},
   (bk.2 ++ im.2 ++ du.2)%list).

(** [new BookInstance({ book, imprint, status, due_back, _id })] with
    the schema of models/bookinstance.js: [book] is cast to an
    ObjectId and stays unset when the cast fails; [status] defaults to
    "Maintenance" and [due_back] to [Date.now] when they are
    [undefined]. *)
Definition new_BookInstance (id : Id) (clock : Date) (book imprint : string)
  (status : option string) (due_back : DateField) : Doc BookInstanceData :=
  mkDoc id {| bi_book := castObjectId L book;
              bi_imprint := imprint;
              bi_status := default "Maintenance" status;
              bi_due_back := match due_back with
                             | DUndefined => Some clock
                             | DEmpty | DNull => None
                             | DDate d => Some d
                             end |}.

Definition instance_of_fields (id : Id) (clock : Date) (f : InstanceFields)
  : Doc BookInstanceData :=
  new_BookInstance id clock (if_book f) (if_imprint f) (Some (if_status f))
    (if_due_back f).

(** [x.book._id] *)
Definition book_id {A} (book : option A) (id : A → Id) : M Id :=
  match book with
  | Some b => mret (id b)
  | None => throw (TypeError "Cannot read properties of undefined (reading '_id')")
  end.

(** Display detail page for a specific BookInstance. *)
Definition bookinstance_detail (req : Req) : Handler := asyncHandler (
  bookInstance ← findInstancePopulated (params_id req);
  match bookInstance with
  | None => next (HttpError 404 "Book copy not found")
  | Some _ =>
      renderFile "views/bookinstance-detail.ejs"
        [("bookinstance", VInstanceP bookInstance)]
        "Book Status"
  end).

(** Handle BookInstance create on POST. *)
Definition bookinstance_create_post (env : Env) (req : Req) : Handler :=
  let v := bookinstance_chains (body req) in
  let errors := v.2 in
  asyncHandler (
    let bookInstance := instance_of_fields (fresh_id env) (now env) v.1 in
    if negb (isEmpty errors) then
      allBooks ← find Book all;
      selected_book ← book_id (bi_book (doc_data bookInstance)) id;
      renderFile "views/bookinstance-form.ejs"
        [("title", VText "Create BookInstance");
         ("book_list", VBookList (map project_title allBooks));
         ("selected_book", VId selected_book);
         ("errors", VErrors errors);
         ("bookinstance", VInstance bookInstance)]
        "Create BookInstance"
    else
      save BookInstance "BookInstance" bookInstance;;
      redirect (bookinstance_url bookInstance)).

(** Display BookInstance delete form on GET. *)
Definition bookinstance_delete_get (req : Req) : Handler := asyncHandler (
  bookInstance ← findInstancePopulated (params_id req);
  (if bookInstance is None then redirect "/catalog/bookinstances" else mret tt);;
  renderFile "views/bookinstance-delete.ejs"
    [("title", VText "Delete BookInstance");
     ("bookinstance", VInstanceP bookInstance)]
    "Create BookInstance").

(** Handle BookInstance delete on POST. *)
Definition bookinstance_delete_post (req : Req) : Handler := asyncHandler (
  findByIdAndRemove BookInstance (b_id (body req));;
  redirect "/catalog/bookinstances").

(** Display BookInstance update form on GET. *)
Definition bookinstance_update_get (req : Req) : Handler := asyncHandler (
  bookInstance ← findInstancePopulated (params_id req);
  allBooks ← find Book all;
  match bookInstance with
  | None => next (HttpError 404 "Book copy not found")
  | Some i =>
      selected_book ← book_id (pi_book i) doc_id;
      renderFile "views/bookinstance-form.ejs"
        [("title", VText "Update BookInstance");
         ("book_list", VBookDocs allBooks);
         ("selected_book", VId selected_book);
         ("bookinstance", VInstanceP bookInstance)]
        "Update BookInstance"
  end).

(** Handle bookinstance update on POST. *)
Definition bookinstance_update_post (env : Env) (req : Req) : Handler :=
  let v := bookinstance_chains (body req) in
  let errors := v.2 in
  asyncHandler (
    let bookInstance := instance_of_fields (params_id req) (now env) v.1 in
    if negb (isEmpty errors) then
      allBooks ← find Book all;
      selected_book ← book_id (bi_book (doc_data bookInstance)) id;
      renderFile "views/bookinstance-form.ejs"
        [("title", VText "Update BookInstance");
         ("book_list", VBookList (map project_title allBooks));
         ("selected_book", VId selected_book);
         ("errors", VErrors errors);
         ("bookinstance", VInstance bookInstance)]
        "Update BookInstance"
    else
      findByIdAndUpdate BookInstance (params_id req) bookInstance;;
      redirect (bookinstance_url bookInstance)).

End Controllers.

(** ** The four kinds, uniformly *)

Inductive Kind := KBook | KAuthor | KGenre | KBookInstance.

(** The fields of a document of any kind. *)
Inductive Entity :=
| EBook (b : BookData)
| EAuthor (a : AuthorData)
| EGenre (g : GenreData)
| EInstance (i : BookInstanceData).

(** The document of kind [k] stored under [id], if any. *)
Definition lookupK (k : Kind) (s : Store) (id : Id) : option Entity :=
  match k with
  | KBook => EBook <$> books s !! id
  | KAuthor => EAuthor <$> authors s !! id
  | KGenre => EGenre <$> genres s !! id
  | KBookInstance => EInstance <$> bookinstances s !! id
  end.

(** The number of documents of kind [k]. *)
Definition count (k : Kind) (s : Store) : nat :=
  match k with
  | KBook => size (books s)
  | KAuthor => size (authors s)
  | KGenre => size (genres s)
  | KBookInstance => size (bookinstances s)
  end.

(** The dependents of [id]: the Books of an Author or of a Genre, the
    BookInstances of a Book; nothing refers to a BookInstance. *)
Definition dependents (k : Kind) (s : Store) (id : Id) : list Id :=
  match k with
  | KBook => map doc_id (List.filter (of_book id) (docs BookInstance s))
  | KAuthor => map doc_id (List.filter (has_author id) (docs Book s))
  | KGenre => map doc_id (List.filter (has_genre id) (docs Book s))
  | KBookInstance => []
  end.

(** The dependents as the confirmation view receives them. *)
Definition dependents_local (k : Kind) (s : Store) (id : Id) : option (string * Val) :=
  match k with
  | KBook =>
      Some ("book_instances", VInstances (List.filter (of_book id) (docs BookInstance s)))
  | KAuthor =>
      Some ("author_books",
            VBookList (map project_title_summary
                         (List.filter (has_author id) (docs Book s))))
  | KGenre =>
      Some ("genre_books",
            VBookList (map project_title_summary
                         (List.filter (has_genre id) (docs Book s))))
  | KBookInstance => None
  end.

Definition list_url (k : Kind) : string :=
  match k with
  | KBook => "/catalog/books"
  | KAuthor => "/catalog/authors"
  | KGenre => "/catalog/genres"
  | KBookInstance => "/catalog/bookinstances"
  end.

Definition detail_url (k : Kind) (id : Id) : string :=
  match k with
  | KBook => "/catalog/book/" ++ id
  | KAuthor => "/catalog/author/" ++ id
  | KGenre => "/catalog/genre/" ++ id
  | KBookInstance => "/catalog/bookinstance/" ++ id
  end.

Definition delete_view (k : Kind) : string :=
  match k with
  | KBook => "views/book-delete.ejs"
  | KAuthor => "views/author-delete.ejs"
  | KGenre => "views/genre-delete.ejs"
  | KBookInstance => "views/bookinstance-delete.ejs"
  end.

Definition form_view (k : Kind) : string :=
  match k with
  | KBook => "views/book-form.ejs"
  | KAuthor => "views/author-form.ejs"
  | KGenre => "views/genre-form.ejs"
  | KBookInstance => "views/bookinstance-form.ejs"
  end.

Definition not_found (k : Kind) : Err :=
  HttpError 404
    match k with
    | KBook => "Book not found"
    | KAuthor => "Author not found"
    | KGenre => "Genre not found"
    | KBookInstance => "Book copy not found"
    end.

(** The identifier field of the delete form. *)
Definition body_id (k : Kind) (b : Body) : Id :=
  match k with
  | KAuthor => b_authorid b
  | _ => b_id b
  end.

Definition detail (k : Kind) : Req → Handler :=
  match k with
  | KBook => book_detail
  | KAuthor => author_detail
  | KGenre => genre_detail
  | KBookInstance => bookinstance_detail
  end.

Definition update_get (k : Kind) : Req → Handler :=
  match k with
  | KBook => book_update_get
  | KAuthor => author_update_get
  | KGenre => genre_update_get
  | KBookInstance => bookinstance_update_get
  end.

Definition delete_get (k : Kind) : Req → Handler :=
  match k with
  | KBook => book_delete_get
  | KAuthor => author_delete_get
  | KGenre => genre_delete_get
  | KBookInstance => bookinstance_delete_get
  end.

Definition delete_post (k : Kind) : Req → Handler :=
  match k with
  | KBook => book_delete_post
  | KAuthor => author_delete_post
  | KGenre => genre_delete_post
  | KBookInstance => bookinstance_delete_post
  end.

Definition create_post (L : Library) (k : Kind) : Env → Req → Handler :=
  match k with
  | KBook => book_create_post L
  | KAuthor => author_create_post L
  | KGenre => genre_create_post L
  | KBookInstance => bookinstance_create_post L
  end.

Definition update_post (L : Library) (k : Kind) (env : Env) : Req → Handler :=
  match k with
  | KBook => book_update_post L
  | KAuthor => author_update_post L
  | KGenre => genre_update_post L
  | KBookInstance => bookinstance_update_post L env
  end.

(** The field errors of a submission. *)
Definition validation_errors (L : Library) (k : Kind) (b : Body) : list FieldError :=
  match k with
  | KBook => (book_chains L b).2
  | KAuthor => (author_chains L b).2
  | KGenre => (genre_chains L b).2
  | KBookInstance => (bookinstance_chains L b).2
  end.

(** The fields of the candidate a submit handler constructs. *)
Definition candidate (L : Library) (k : Kind) (env : Env) (b : Body) : Entity :=
  match k with
  | KBook => EBook (doc_data (new_Book "" (book_chains L b).1))
  | KAuthor => EAuthor (doc_data (new_Author "" (author_chains L b).1))
  | KGenre => EGenre {| g_name := (genre_chains L b).1 |}
  | KBookInstance =>
      EInstance (doc_data (instance_of_fields L "" (now env) (bookinstance_chains L b).1))
  end.

(** The schema validators of the kind's model. *)
Definition schema_ok (e : Entity) : bool :=
  match e with
  | EBook b => validate Book b
  | EAuthor a => validate Author a
  | EGenre g => validate Genre g
  | EInstance i => validate BookInstance i
  end.

(** What an update stores, given the stored document and the
    candidate. *)
Definition updated (old new : Entity) : Entity :=
  match old, new with
  | EBook o, EBook n => EBook (upd Book o n)
  | EAuthor o, EAuthor n => EAuthor (upd Author o n)
  | EGenre o, EGenre n => EGenre (upd Genre o n)
  | EInstance o, EInstance n => EInstance (upd BookInstance o n)
  | _, _ => new
  end.

(** Where a successful create-submit redirects. *)
Definition after_create (k : Kind) (id : Id) : string :=
  match k with
  | KBook => detail_url KBook id
  | KBookInstance => detail_url KBookInstance id
  | KAuthor => "/catalog/authors"
  | KGenre => "catalog/genres"
  end.

(** A Genre with the submitted name, up to the collation. *)
Definition genre_collision (L : Library) (s : Store) (b : Body) : Prop :=
  ∃ id g, genres s !! id = Some g
          ∧ collation_eq L (g_name g) (genre_chains L b).1 = true.

(** The locals of a [RenderFile] call. *)
Definition local (key : string) (locals : list (string * Val)) : option Val :=
  snd <$> List.find (λ p, String.eqb (fst p) key) locals.

(** The key under which a form receives the candidate. *)
Definition candidate_key (k : Kind) : string :=
  match k with
  | KBook => "book"
  | KAuthor => "author"
  | KGenre => "genre"
  | KBookInstance => "bookinstance"
  end.

Definition candidate_local (k : Kind) (id : Id) (e : Entity) : Val :=
  match e with
  | EBook b => VBook (mkDoc id b)
  | EAuthor a => VAuthor (Some (mkDoc id a))
  | EGenre g => VGenre (Some (mkDoc id g))
  | EInstance i => VInstance (mkDoc id i)
  end.

(** *** Sample data *)

Definition id1 : Id := "64b000000000000000000001".
Definition id2 : Id := "64b000000000000000000002".
Definition id3 : Id := "64b000000000000000000003".
Definition id4 : Id := "64b000000000000000000004".

Definition env0 : Env := {| fresh_id := "64b0000000000000000000ff"; now := 1700000000000%Z |}.

Definition poetry : GenreData := {| g_name := "Poetry" |}.
Definition drama : GenreData := {| g_name := "Drama" |}.

Definition austen : AuthorData :=
  {| a_first_name := "Jane"; a_family_name := "Austen";
     a_date_of_birth := Unset; a_date_of_death := Unset |}.

Definition emma : BookData :=
  {| bk_title := "Emma"; bk_author := id1; bk_summary := "A novel";
     bk_isbn := "9780141439587"; bk_genre := [id2] |}.

Definition copy_of_emma : BookInstanceData :=
  {| bi_book := Some id3; bi_imprint := "Penguin, 2003";
     bi_status := "Available"; bi_due_back := None |}.

(** One author, one genre, one book by that author in that genre, one
    copy of the book. *)
Definition library : Store :=
  {| books := {[ id3 := emma ]}; authors := {[ id1 := austen ]};
     genres := {[ id2 := poetry ]}; bookinstances := {[ id4 := copy_of_emma ]} |}.

(** Two genres, nothing else. *)
Definition two_genres : Store :=
  {| books := ∅; authors := ∅; genres := {[ id1 := poetry; id2 := drama ]};
     bookinstances := ∅ |}.

Definition genre_form (name : string) : Body :=
  {| b_name := Some name; b_first_name := None; b_family_name := None;
     b_date_of_birth := None; b_date_of_death := None;
     b_title := None; b_author := None; b_summary := None; b_isbn := None;
     b_genre := GAbsent;
     b_book := None; b_imprint := None; b_status := None; b_due_back := None;
     b_id := ""; b_authorid := "" |}.

Definition author_form (first family : string) : Body :=
  {| b_name := None; b_first_name := Some first; b_family_name := Some family;
     b_date_of_birth := None; b_date_of_death := None;
     b_title := None; b_author := None; b_summary := None; b_isbn := None;
     b_genre := GAbsent;
     b_book := None; b_imprint := None; b_status := None; b_due_back := None;
     b_id := ""; b_authorid := "" |}.

Definition book_form (title author summary isbn : string) (genre : GenreField) : Body :=
  {| b_name := None; b_first_name := None; b_family_name := None;
     b_date_of_birth := None; b_date_of_death := None;
     b_title := Some title; b_author := Some author; b_summary := Some summary;
     b_isbn := Some isbn; b_genre := genre;
     b_book := None; b_imprint := None; b_status := None; b_due_back := None;
     b_id := ""; b_authorid := "" |}.

Definition instance_form (book imprint status : string) : Body :=
  {| b_name := None; b_first_name := None; b_family_name := None;
     b_date_of_birth := None; b_date_of_death := None;
     b_title := None; b_author := None; b_summary := None; b_isbn := None;
     b_genre := GAbsent;
     b_book := Some book; b_imprint := Some imprint; b_status := Some status;
     b_due_back := None;
     b_id := ""; b_authorid := "" |}.

(** The hidden field of a delete form. *)
Definition delete_form (id : Id) : Body :=
  {| b_name := None; b_first_name := None; b_family_name := None;
     b_date_of_birth := None; b_date_of_death := None;
     b_title := None; b_author := None; b_summary := None; b_isbn := None;
     b_genre := GAbsent;
     b_book := None; b_imprint := None; b_status := None; b_due_back := None;
     b_id := id; b_authorid := id |}.

(** *** Sample requests and stores *)

Definition delete_emma : Req := {| params_id := id3; body := delete_form id3 |}.

Definition delete_poetry_by_drama : Req :=
  {| params_id := id1; body := delete_form id2 |}.

Definition delete_poetry : Req := {| params_id := id1; body := delete_form id1 |}.

(** A Book whose genre [id2] is not (or no longer) in the store. *)
Definition dangling : Store :=
  {| books := {[ id3 := emma ]}; authors := {[ id1 := austen ]};
     genres := ∅; bookinstances := ∅ |}.

Definition delete_missing_genre : Req :=
  {| params_id := id2; body := delete_form id2 |}.

(** A Genre whose stored name is the escaped form of a one-character
    name. *)
Definition escaped_genre : Store :=
  {| books := ∅; authors := ∅; genres := {[ id1 := {| g_name := "&lt;" |} ]};
     bookinstances := ∅ |}.

Definition create_short_genre : Req := {| params_id := ""; body := genre_form "<" |}.

Definition create_poetry_again : Req := {| params_id := ""; body := genre_form " POETRY " |}.

(** *** Writing a document *)

(** The kind of the documents an [Entity] belongs to. *)
Definition kind_of (e : Entity) : Kind :=
  match e with
  | EBook _ => KBook
  | EAuthor _ => KAuthor
  | EGenre _ => KGenre
  | EInstance _ => KBookInstance
  end.

(** The store after [e] is written under [id] in its collection. *)
Definition write (id : Id) (e : Entity) (s : Store) : Store :=
  match e with
  | EBook b => set_coll Book (<[id := b]> (books s)) s
  | EAuthor a => set_coll Author (<[id := a]> (authors s)) s
  | EGenre g => set_coll Genre (<[id := g]> (genres s)) s
  | EInstance i => set_coll BookInstance (<[id := i]> (bookinstances s)) s
  end.

Definition create_austen : Req :=
  {| params_id := ""; body := author_form "Jane" "Austen" |}.

Definition create_fantasy : Req :=
  {| params_id := ""; body := genre_form "  Fantasy " |}.

Definition create_copy : Req :=
  {| params_id := ""; body := instance_form id3 "Penguin, 2003" "Available" |}.

Definition update_missing_genre : Req :=
  {| params_id := id3; body := genre_form "Comedy" |}.

Definition update_missing_book : Req :=
  {| params_id := id1;
     body := book_form "Emma" id1 "A novel" "9780141439587" GAbsent |}.

Definition rename_poetry : Req :=
  {| params_id := id1; body := genre_form "Verse" |}.

Definition create_persuasion : Req :=
  {| params_id := id3;
     body := book_form "Persuasion" id1 "A novel" "9780141439686" GAbsent |}.

Definition create_copy_without_book : Req :=
  {| params_id := id4; body := instance_form "" "Penguin, 2003" "Available" |}.

(** ** The remaining handlers *)

(** *** Sorted queries *)

(** The order of [sort({ key: 1 })] on a string path: the strings are
    compared byte by byte.  Which of two documents with the same key
    comes first is not determined by the query; the properties below
    do not depend on it. *)
Definition key_le {A} (key : A → string) (a b : Doc A) : Prop :=
  String.leb (key (doc_data a)) (key (doc_data b)) = true.

#[global] Instance key_le_dec {A} (key : A → string) : RelDecision (key_le key) :=
  λ a b, decide (String.leb (key (doc_data a)) (key (doc_data b)) = true).

(** [Model.find().sort({ key: 1 })] *)
Definition find_sorted {A} (Mo : Model A) (key : A → string) : M (list (Doc A)) :=
  λ s, (s, [], Ret (merge_sort (key_le key) (docs Mo s))).

(** Documents that carry no [checked] mark. *)
Definition unmarked (l : list (Doc GenreData)) : list (Doc GenreData * bool) :=
  map (λ g, (g, false)) l.

(** *** genreController.js, authorController.js, bookController.js,
    bookInstanceController.js: the lists and the empty forms *)

(** Display list of all Genre. *)
Definition genre_list : Handler := asyncHandler (
  allGenres ← find_sorted Genre g_name;
  renderFile "views/genre-list.ejs"
    [("title", VText "Genre List"); ("list_genres", VGenres (unmarked allGenres))]
    "Genres").

(** Display list of all Authors. *)
Definition author_list : Handler := asyncHandler (
  allAuthors ← find_sorted Author a_family_name;
  renderFile "views/author-list.ejs"
    [("title", VText "Book Instance List"); ("author_list", VAuthors allAuthors)]
    "Authors").

(** Display Genre create form on GET (not wrapped in [asyncHandler]). *)
Definition genre_create_get : Handler := λ s,
  (s, [RenderFile "views/genre-form.ejs"
         [("title", VText "Create Genre"); ("errors", VNull)] "Create Genre"]).

(** Display Author create form on GET (not wrapped in [asyncHandler]). *)
Definition author_create_get : Handler := λ s,
  (s, [RenderFile "views/author-form.ejs"
         [("title", VText "Create Author"); ("errors", VNull)] "Create Author"]).

(** Display book create form on GET. *)
Definition book_create_get : Handler := asyncHandler (
  allAuthors ← find Author all;
  allGenres ← find Genre all;
  renderFile "views/book-form.ejs"
    [("title", VText "Create Book"); ("authors", VAuthors allAuthors);
     ("genres", VGenres (unmarked allGenres)); ("errors", VNull)]
    "Create Book").

(** Display BookInstance create form on GET. *)
Definition bookinstance_create_get : Handler := asyncHandler (
  allBooks ← find Book all;
  renderFile "views/bookinstance-form.ejs"
    [("title", VText "Create BookInstance");
     ("book_list", VBookList (map project_title allBooks)); ("errors", VNull)]
    "Create BookInstance").

Definition create_get (k : Kind) : Handler :=
  match k with
  | KBook => book_create_get
  | KAuthor => author_create_get
  | KGenre => genre_create_get
  | KBookInstance => bookinstance_create_get
  end.

(** *** app.js: the error handler *)

(** An error as the error handler reads it: [err.status] and
    [err.message]. *)
Record JsError := { e_status : option nat; e_message : string }.

(** The errors of the controllers as error objects.  The message of
    an error that a library raises (a schema validation, a duplicate
    key) is the library's, [library_message]. *)
Definition js_error (library_message : string) (e : Err) : JsError :=
  match e with
  | HttpError status message => {| e_status := Some status; e_message := message |}
  | TypeError message => {| e_status := None; e_message := message |}
  | ValidationError _ | DuplicateKey _ =>
      {| e_status := None; e_message := library_message |}
  end.

(** What the error handler sends: the status, the view, and the
    locals [message] and [error] ([None] for the empty object). *)
Record ErrorPage := {
  ep_status : nat;
  ep_view : string;
  ep_message : string;
  ep_error : option JsError;
}.

(** [err.status || 500] *)
Definition status_or_500 (status : option nat) : nat :=
  match status with
  | Some (S n) => S n
  | _ => 500
  end.

(** [app.use(function(err, req, res, next) { ... })] *)
Definition error_handler (development : bool) (err : JsError) : ErrorPage :=
  {| ep_message := e_message err;
     ep_error := if development then Some err else None;
     ep_status := status_or_500 (e_status err);
     ep_view := "error" |}.

(** *** Observations used by the properties *)

Definition detail_view (k : Kind) : string :=
  match k with
  | KBook => "views/book-detail.ejs"
  | KAuthor => "views/author-detail.ejs"
  | KGenre => "views/genre-detail.ejs"
  | KBookInstance => "views/bookinstance-detail.ejs"
  end.

(** The locals of a detail view show the document [e] stored under
    [id]: the document itself for an Author or a Genre, its own fields
    for a Book or a BookInstance (whose references are populated). *)
Definition shows (id : Id) (e : Entity) (locals : list (string * Val)) : Prop :=
  match e with
  | EGenre g => local "genre" locals = Some (VGenre (Some (mkDoc id g)))
  | EAuthor a => local "author" locals = Some (VAuthor (Some (mkDoc id a)))
  | EBook b =>
      ∃ p, local "book" locals = Some (VBookP (Some p))
           ∧ pb_id p = id ∧ pb_title p = bk_title b
           ∧ pb_summary p = bk_summary b ∧ pb_isbn p = bk_isbn b
  | EInstance i =>
      ∃ p, local "bookinstance" locals = Some (VInstanceP (Some p))
           ∧ pi_id p = id ∧ pi_imprint p = bi_imprint i
           ∧ pi_status p = bi_status i ∧ pi_due_back p = bi_due_back i
  end.

(** Every reference of a Book and of a BookInstance names a stored
    document. *)
Definition refs_ok (s : Store) : Prop :=
  (∀ id b, books s !! id = Some b →
     is_Some (authors s !! bk_author b)
     ∧ ∀ g, g ∈ bk_genre b → is_Some (genres s !! g))
  ∧ (∀ id i b, bookinstances s !! id = Some i → bi_book i = Some b →
       is_Some (books s !! b)).

(** No two stored Genres have the same name up to the collation. *)
Definition unique_names (L : Library) (s : Store) : Prop :=
  ∀ i j gi gj, genres s !! i = Some gi → genres s !! j = Some gj → i ≠ j →
    collation_eq L (g_name gi) (g_name gj) = false.

(** The same, as a search through the documents. *)
Definition unique_names_search (L : Library) (s : Store) : bool :=
  forallb (λ a, forallb (λ b,
      String.eqb (doc_id a) (doc_id b)
      || negb (collation_eq L (g_name (doc_data a)) (g_name (doc_data b))))
    (docs Genre s)) (docs Genre s).

Definition with_genre (b : Body) (g : GenreField) : Body :=
  {| b_name := b_name b; b_first_name := b_first_name b;
     b_family_name := b_family_name b;
     b_date_of_birth := b_date_of_birth b; b_date_of_death := b_date_of_death b;
     b_title := b_title b; b_author := b_author b; b_summary := b_summary b;
     b_isbn := b_isbn b; b_genre := g;
     b_book := b_book b; b_imprint := b_imprint b; b_status := b_status b;
     b_due_back := b_due_back b; b_id := b_id b; b_authorid := b_authorid b |}.

Definition with_status (b : Body) (st : option string) : Body :=
  {| b_name := b_name b; b_first_name := b_first_name b;
     b_family_name := b_family_name b;
     b_date_of_birth := b_date_of_birth b; b_date_of_death := b_date_of_death b;
     b_title := b_title b; b_author := b_author b; b_summary := b_summary b;
     b_isbn := b_isbn b; b_genre := b_genre b;
     b_book := b_book b; b_imprint := b_imprint b; b_status := st;
     b_due_back := b_due_back b; b_id := b_id b; b_authorid := b_authorid b |}.

(** *** More sample data *)

Definition create_lost_copy : Req :=
  {| params_id := ""; body := instance_form id3 "Penguin, 2003" "Lost" |}.

Definition show_new : Req := {| params_id := fresh_id env0; body := delete_form "" |}.

Definition show_emma : Req := {| params_id := id3; body := delete_form id3 |}.

Definition delete_austen : Req := {| params_id := id1; body := delete_form id1 |}.

Definition delete_copy : Req := {| params_id := id4; body := delete_form id4 |}.

(** A copy whose book is not in the store. *)
Definition orphan_copy : Store :=
  {| books := ∅; authors := ∅; genres := ∅;
     bookinstances := {[ id4 := copy_of_emma ]} |}.

Definition delete_unknown_genre : Req :=
  {| params_id := id3; body := delete_form id3 |}.

(** The name under which the kind's model is registered. *)
Definition model_name (k : Kind) : string :=
  match k with
  | KBook => "Book"
  | KAuthor => "Author"
  | KGenre => "Genre"
  | KBookInstance => "BookInstance"
  end.

Definition submit_short_genre : Req :=
  {| params_id := id1; body := genre_form " ab " |}.

Definition show_copy : Req := {| params_id := id4; body := delete_form id4 |}.

(** *** Where a create-submit is meant to go *)

(** The location a successful create-submit redirects to, by kind: the
    detail location of the new document for a Book and a BookInstance,
    the list of authors for an Author.  For a Genre the source's
    comment names the genre list page; the location is left open
    here. *)
Definition created_location (k : Kind) (id : Id) : option string :=
  match k with
  | KBook => Some (detail_url KBook id)
  | KBookInstance => Some (detail_url KBookInstance id)
  | KAuthor => Some (list_url KAuthor)
  | KGenre => None
  end.

Definition update_missing_author : Req :=
  {| params_id := id3; body := author_form "Jane" "Austen" |}.

(** * Properties *)

(** Running a handler: unfold the monad, the store queries and the
    handlers, keeping the models and the document lists folded. *)
Ltac run :=
  cbv beta iota zeta delta
    [asyncHandler mbind M_bind mret M_ret bind ret findById find findOne
     countDocuments redirect renderFile next call throw findBookPopulated
     findInstancePopulated populate_book populate_instance findByIdAndRemove
     book_id isEmpty negb
     delete_post detail update_get delete_get create_post update_post
     genre_detail genre_create_post genre_delete_get genre_delete_post
     genre_update_get genre_update_post
     author_detail author_create_post author_delete_get author_delete_post
     author_update_get author_update_post
     book_detail book_create_post book_delete_get book_delete_post
     book_update_get book_update_post
     bookinstance_detail bookinstance_create_post bookinstance_delete_get
     bookinstance_delete_post bookinstance_update_get bookinstance_update_post
     index fmap option_fmap option_map];
  cbn [app coll set_coll validate upd Book Author Genre BookInstance
       doc_id doc_data].

(** ** The chains on examples *)

Example genre_name_is_trimmed_then_escaped :
  genre_chains ascii_lib (genre_form "  Sci/Fi ") = ("Sci&#x2F;Fi", []).
Proof. reflexivity. Qed.

Example genre_name_too_short :
  genre_chains ascii_lib (genre_form " ab ")
  = ("ab", [{| err_path := "name";
               err_msg := "Genre name must contain at least 3 characters" |}]).
Proof. reflexivity. Qed.

Example author_without_family_name :
  (author_chains ascii_lib (author_form "Jane" "")).2
  = [{| err_path := "family_name"; err_msg := "Family name must be specified." |};
     {| err_path := "family_name";
        err_msg := "Family name has non-alphanumeric characters." |}].
Proof. reflexivity. Qed.

Example instance_with_bad_date :
  bookinstance_chains ascii_lib
    {| b_name := None; b_first_name := None; b_family_name := None;
       b_date_of_birth := None; b_date_of_death := None;
       b_title := None; b_author := None; b_summary := None; b_isbn := None;
       b_genre := GAbsent;
       b_book := Some id3; b_imprint := Some "Penguin"; b_status := None;
       b_due_back := Some "not-a-date"; b_id := ""; b_authorid := "" |}
  = ({| if_book := id3; if_imprint := "Penguin"; if_status := "";
        if_due_back := DNull |},
     [{| err_path := "due_back"; err_msg := "Invalid date" |}]).
Proof. reflexivity. Qed.

Example book_genre_scalar_becomes_array :
  bf_genre (book_chains ascii_lib
              (book_form "Emma" id1 "A novel" "9780141439587" (GScalar id2))).1
  = [id2].
Proof. reflexivity. Qed.

(** ** Lists of documents *)

Lemma positive_length {A} (l : list A) : l ≠ [] → (0 <? length l) = true.
Proof. destruct l; [congruence | reflexivity]. Qed.

Lemma zero_length {A} (l : list A) : l = [] → (0 <? length l) = false.
Proof. intros ->. reflexivity. Qed.

Lemma map_not_nil {A B} (f : A → B) (l : list A) : map f l ≠ [] → l ≠ [].
Proof. destruct l; cbn; congruence. Qed.

Lemma map_nil {A B} (f : A → B) (l : list A) : map f l = [] → l = [].
Proof. destruct l; cbn; congruence. Qed.

Lemma filter_all {A} (l : list (Doc A)) : List.filter all l = l.
Proof. induction l as [|d l IH]; cbn; [reflexivity | by rewrite IH]. Qed.

Lemma length_docs {A} (Mo : Model A) (s : Store) :
  length (docs Mo s) = size (coll Mo s).
Proof. unfold docs. by rewrite length_map, length_map_to_list. Qed.

Lemma In_docs {A} (Mo : Model A) (s : Store) (d : Doc A) :
  In d (docs Mo s) ↔ coll Mo s !! doc_id d = Some (doc_data d).
Proof.
  unfold docs. rewrite in_map_iff. split.
  - intros [[i a] [<- Hin]]. cbn.
    by apply elem_of_map_to_list, list_elem_of_In.
  - intros Hd. exists (doc_id d, doc_data d). split; [by destruct d |].
    by apply list_elem_of_In, elem_of_map_to_list.
Qed.

(** ** Deleting *)

(** C4.  A delete-submit for a stored document that still has a
    dependent (a Book of the Author or of the Genre, a BookInstance of
    the Book) leaves the store as it is: the confirmation view is
    rendered again with the current dependents, the document is still
    there and the number of documents of its kind is the same. *)
Theorem delete_post_blocked_by_dependents (k : Kind) (req : Req) (s : Store) :
  is_Some (lookupK k s (params_id req)) →
  dependents k s (params_id req) ≠ [] →
  ∃ locals title,
    delete_post k req s = (s, [RenderFile (delete_view k) locals title])
    ∧ (∃ key v, dependents_local k s (params_id req) = Some (key, v)
                ∧ local key locals = Some v)
    ∧ count k (delete_post k req s).1 = count k s
    ∧ lookupK k (delete_post k req s).1 (params_id req)
      = lookupK k s (params_id req).
Proof.
  intros Hex Hdep.
  destruct k; cbn in Hdep; try congruence;
    apply map_not_nil, positive_length in Hdep; run.
  - destruct Hex as [e He]. cbn in He.
    destruct (books s !! params_id req) eqn:Hb; [| discriminate].
    rewrite Hdep. run.
    eexists _, _. split; [reflexivity |]. split; [| done].
    eexists _, _. split; reflexivity.
  - rewrite Hdep. run.
    eexists _, _. split; [reflexivity |]. split; [| done].
    eexists _, _. split; reflexivity.
  - rewrite Hdep. run.
    eexists _, _. split; [reflexivity |]. split; [| done].
    eexists _, _. split; reflexivity.
Qed.

Lemma delete_post_blocked_by_dependents_witness :
  is_Some (lookupK KAuthor library id1)
  ∧ dependents KAuthor library id1 ≠ []
  ∧ ∃ locals title,
      delete_post KAuthor {| params_id := id1; body := delete_form id1 |} library
      = (library, [RenderFile (delete_view KAuthor) locals title])
      ∧ (∃ key v, dependents_local KAuthor library id1 = Some (key, v)
                  ∧ local key locals = Some v)
      ∧ count KAuthor
          (delete_post KAuthor {| params_id := id1; body := delete_form id1 |} library).1
        = count KAuthor library
      ∧ lookupK KAuthor
          (delete_post KAuthor {| params_id := id1; body := delete_form id1 |} library).1 id1
        = lookupK KAuthor library id1.
Proof.
  assert (H1 : is_Some (lookupK KAuthor library id1)) by (vm_compute; eauto).
  assert (H2 : dependents KAuthor library id1 ≠ []) by (vm_compute; discriminate).
  split; [exact H1 |]. split; [exact H2 |].
  exact (delete_post_blocked_by_dependents KAuthor
           {| params_id := id1; body := delete_form id1 |} library H1 H2).
Defined.

(** C2, as stated, fails: the Book [id3] has a copy, and its
    delete-submit removes nothing. *)
Lemma book_delete_post_keeps_referenced_book :
  dependents KBook library id3 = [id4]
  ∧ (book_delete_post delete_emma library).1 = library
  ∧ books (book_delete_post delete_emma library).1 !! id3 = Some emma
  ∧ ∃ locals, (book_delete_post delete_emma library).2
              = [RenderFile "views/book-delete.ejs" locals "Remove Book"].
Proof.
  split; [by vm_compute |]. split; [by vm_compute |]. split; [by vm_compute |].
  eexists. vm_compute. reflexivity.
Qed.

(** C2, amended.  The delete-submit of a stored Book is guarded by a
    dependent check: while a BookInstance refers to it, nothing is
    removed and the confirmation view is rendered again; when none
    does, the document named by the form's id field is removed from
    the Books and the response redirects to the book list. *)
Theorem book_delete_post_guarded (req : Req) (s : Store) :
  is_Some (books s !! params_id req) →
  (dependents KBook s (params_id req) ≠ [] →
     ∃ locals,
       book_delete_post req s
       = (s, [RenderFile "views/book-delete.ejs" locals "Remove Book"]))
  ∧ (dependents KBook s (params_id req) = [] →
       book_delete_post req s
       = (set_coll Book (delete (b_id (body req)) (books s)) s,
          [Redirect "/catalog/books"])).
Proof.
  intros [b Hb]. split; intros Hdep; cbn in Hdep.
  - apply map_not_nil, positive_length in Hdep. run.
    rewrite Hb, Hdep. run. eexists. reflexivity.
  - apply map_nil, zero_length in Hdep. run.
    rewrite Hb, Hdep. run. reflexivity.
Qed.

Lemma book_delete_post_guarded_witness :
  is_Some (books library !! id3)
  ∧ dependents KBook library id3 ≠ []
  ∧ ∃ locals,
      book_delete_post delete_emma library
      = (library, [RenderFile "views/book-delete.ejs" locals "Remove Book"]).
Proof.
  assert (H1 : is_Some (books library !! params_id delete_emma))
    by (vm_compute; eauto).
  assert (H2 : dependents KBook library (params_id delete_emma) ≠ [])
    by (vm_compute; discriminate).
  split; [exact H1 |]. split; [exact H2 |].
  exact (proj1 (book_delete_post_guarded delete_emma library H1) H2).
Defined.

(** ** The home page *)

(** C10.  On the home page the genre count is obtained by counting
    the Author documents: for every store the view receives the number
    of Authors under [genre_count], and there are stores where this is
    not the number of Genres. *)
Theorem index_genre_count_counts_authors :
  (∀ s : Store, ∃ locals title,
      index s = (s, [RenderFile "views/index.ejs" locals title])
      ∧ local "genre_count" locals = Some (VCount (count KAuthor s))
      ∧ local "author_count" locals = Some (VCount (count KAuthor s)))
  ∧ (∃ (s : Store) locals title,
      index s = (s, [RenderFile "views/index.ejs" locals title])
      ∧ local "genre_count" locals ≠ Some (VCount (count KGenre s))).
Proof.
  split.
  - intros s. run. rewrite !filter_all, !length_docs. cbn [coll Author Book BookInstance].
    eexists _, _. split; [reflexivity |]. split; reflexivity.
  - exists two_genres. eexists _, _. split; [vm_compute; reflexivity |].
    vm_compute. discriminate.
Qed.

(** ** Deleting a document without dependents *)

Lemma lookupK_delete_eq (k : Kind) (s : Store) (id : Id) :
  lookupK k
    match k with
    | KBook => set_coll Book (delete id (books s)) s
    | KAuthor => set_coll Author (delete id (authors s)) s
    | KGenre => set_coll Genre (delete id (genres s)) s
    | KBookInstance => set_coll BookInstance (delete id (bookinstances s)) s
    end id = None.
Proof. destruct k; cbn; by rewrite lookup_delete_eq. Qed.

Lemma lookupK_delete_ne (k k' : Kind) (s : Store) (id id' : Id) :
  (k', id') ≠ (k, id) →
  lookupK k'
    match k with
    | KBook => set_coll Book (delete id (books s)) s
    | KAuthor => set_coll Author (delete id (authors s)) s
    | KGenre => set_coll Genre (delete id (genres s)) s
    | KBookInstance => set_coll BookInstance (delete id (bookinstances s)) s
    end id' = lookupK k' s id'.
Proof.
  intros Hne. destruct k, k'; cbn; try reflexivity;
    rewrite lookup_delete_ne; (reflexivity || congruence).
Qed.

Lemma count_delete (k : Kind) (s : Store) (id : Id) :
  is_Some (lookupK k s id) →
  S (count k
       match k with
       | KBook => set_coll Book (delete id (books s)) s
       | KAuthor => set_coll Author (delete id (authors s)) s
       | KGenre => set_coll Genre (delete id (genres s)) s
       | KBookInstance => set_coll BookInstance (delete id (bookinstances s)) s
       end) = count k s.
Proof.
  intros Hex.
  destruct k; cbn in *; apply fmap_is_Some in Hex;
    rewrite map_size_delete_Some by done;
    apply map_size_ne_0_lookup_2 in Hex; lia.
Qed.

(** C5, as stated, fails: the delete-submit addressed to [id1] by its
    path, with the identifier [id2] in the form, removes [id2] and
    keeps [id1]. *)
Lemma genre_delete_post_removes_body_id :
  is_Some (lookupK KGenre two_genres (params_id delete_poetry_by_drama))
  ∧ dependents KGenre two_genres (params_id delete_poetry_by_drama) = []
  ∧ lookupK KGenre (delete_post KGenre delete_poetry_by_drama two_genres).1 id1
    = Some (EGenre poetry)
  ∧ lookupK KGenre (delete_post KGenre delete_poetry_by_drama two_genres).1 id2
    = None.
Proof.
  split; [vm_compute; eauto |]. split; [by vm_compute |].
  split; by vm_compute.
Qed.

(** C5, amended.  For every kind, a delete-submit whose form carries
    the same identifier as the request path (field [authorid] for an
    Author, [id] otherwise), for a stored document without dependents,
    removes exactly that document: it is gone, every other document of
    every kind is unchanged, and the response redirects to the list of
    the kind. *)
Theorem delete_post_removes_exactly_one (k : Kind) (req : Req) (s : Store) :
  body_id k (body req) = params_id req →
  is_Some (lookupK k s (params_id req)) →
  dependents k s (params_id req) = [] →
  (delete_post k req s).2 = [Redirect (list_url k)]
  ∧ lookupK k (delete_post k req s).1 (params_id req) = None
  ∧ (∀ k' id', (k', id') ≠ (k, params_id req) →
       lookupK k' (delete_post k req s).1 id' = lookupK k' s id')
  ∧ S (count k (delete_post k req s).1) = count k s.
Proof.
  intros Hid Hex Hdep.
  assert (Hrun : delete_post k req s
                 = (match k with
                    | KBook => set_coll Book (delete (params_id req) (books s)) s
                    | KAuthor => set_coll Author (delete (params_id req) (authors s)) s
                    | KGenre => set_coll Genre (delete (params_id req) (genres s)) s
                    | KBookInstance =>
                        set_coll BookInstance
                          (delete (params_id req) (bookinstances s)) s
                    end, [Redirect (list_url k)])).
  { destruct k; cbn in Hid, Hdep; try apply map_nil, zero_length in Hdep; run.
    - destruct Hex as [e He]. cbn in He.
      destruct (books s !! params_id req) eqn:Hb; [| discriminate].
      rewrite Hdep, Hid. reflexivity.
    - rewrite Hdep, Hid. reflexivity.
    - rewrite Hdep, Hid. reflexivity.
    - rewrite Hid. reflexivity. }
  rewrite Hrun. cbn [fst snd]. split; [reflexivity |].
  split; [apply lookupK_delete_eq |].
  split; [intros k' id' Hne; by apply lookupK_delete_ne |].
  by apply count_delete.
Qed.

Lemma delete_post_removes_exactly_one_witness :
  body_id KGenre (body delete_poetry) = params_id delete_poetry
  ∧ is_Some (lookupK KGenre two_genres (params_id delete_poetry))
  ∧ dependents KGenre two_genres (params_id delete_poetry) = []
  ∧ (delete_post KGenre delete_poetry two_genres).2 = [Redirect (list_url KGenre)]
  ∧ lookupK KGenre (delete_post KGenre delete_poetry two_genres).1
      (params_id delete_poetry) = None
  ∧ (∀ k' id', (k', id') ≠ (KGenre, params_id delete_poetry) →
       lookupK k' (delete_post KGenre delete_poetry two_genres).1 id'
       = lookupK k' two_genres id')
  ∧ S (count KGenre (delete_post KGenre delete_poetry two_genres).1)
    = count KGenre two_genres.
Proof.
  assert (H1 : body_id KGenre (body delete_poetry) = params_id delete_poetry)
    by reflexivity.
  assert (H2 : is_Some (lookupK KGenre two_genres (params_id delete_poetry)))
    by (vm_compute; eauto).
  assert (H3 : dependents KGenre two_genres (params_id delete_poetry) = [])
    by (vm_compute; reflexivity).
  split; [exact H1 |]. split; [exact H2 |]. split; [exact H3 |].
  exact (delete_post_removes_exactly_one KGenre delete_poetry two_genres H1 H2 H3).
Defined.

(** ** Identifiers without a document *)

(** C6, as stated, fails: no Genre has the identifier [id2], a Book
    still refers to it, and the delete-submit renders the confirmation
    view instead of redirecting to the list. *)
Lemma genre_delete_post_absent_with_books :
  lookupK KGenre dangling (params_id delete_missing_genre) = None
  ∧ ∃ locals,
      delete_post KGenre delete_missing_genre dangling
      = (dangling, [RenderFile "views/genre-delete.ejs" locals "Delete Genre"])
      ∧ local "genre" locals = Some (VGenre None).
Proof.
  split; [by vm_compute |]. eexists. split; vm_compute; reflexivity.
Qed.

(** C6, amended.  For an identifier without a document of the kind:
    the detail and update-get operations of the four kinds pass a
    Not-Found error with status 404 to [next] and do nothing else; the
    delete-get operation first redirects to the list of the kind; the
    delete-post operation first redirects to the list of the kind when
    no dependent refers to the identifier, and always for a Book; for
    an Author or a Genre to which Books still refer it renders the
    confirmation view again. *)
Theorem absent_identifier (k : Kind) (req : Req) (s : Store) :
  lookupK k s (params_id req) = None →
  detail k req s = (s, [Next (not_found k)])
  ∧ update_get k req s = (s, [Next (not_found k)])
  ∧ (∃ locals title,
       delete_get k req s
       = (s, [Redirect (list_url k); RenderFile (delete_view k) locals title]))
  ∧ (dependents k s (params_id req) = [] ∨ k = KBook →
       ∃ s' rest, delete_post k req s = (s', Redirect (list_url k) :: rest))
  ∧ (k = KAuthor ∨ k = KGenre →
     dependents k s (params_id req) ≠ [] →
       ∃ locals title,
         delete_post k req s = (s, [RenderFile (delete_view k) locals title])).
Proof.
  intros Habs. destruct k; cbn in Habs; apply fmap_None in Habs.
  - split; [run; by rewrite Habs |]. split; [run; by rewrite Habs |].
    split; [run; rewrite Habs; eexists _, _; reflexivity |].
    split.
    + intros _. run. rewrite Habs.
      destruct (0 <? length _); eexists _, _; reflexivity.
    + intros [? | ?]; discriminate.
  - split; [run; by rewrite Habs |]. split; [run; by rewrite Habs |].
    split; [run; rewrite Habs; eexists _, _; reflexivity |].
    split.
    + intros [Hdep | ?]; [| discriminate]. cbn in Hdep.
      apply map_nil, zero_length in Hdep. run. rewrite Hdep.
      eexists _, _. reflexivity.
    + intros _ Hdep. cbn in Hdep. apply map_not_nil, positive_length in Hdep.
      run. rewrite Hdep. eexists _, _. reflexivity.
  - split; [run; by rewrite Habs |]. split; [run; by rewrite Habs |].
    split; [run; rewrite Habs; eexists _, _; reflexivity |].
    split.
    + intros [Hdep | ?]; [| discriminate]. cbn in Hdep.
      apply map_nil, zero_length in Hdep. run. rewrite Hdep.
      eexists _, _. reflexivity.
    + intros _ Hdep. cbn in Hdep. apply map_not_nil, positive_length in Hdep.
      run. rewrite Hdep. eexists _, _. reflexivity.
  - split; [run; by rewrite Habs |]. split; [run; by rewrite Habs |].
    split; [run; rewrite Habs; eexists _, _; reflexivity |].
    split.
    + intros _. run. eexists _, _. reflexivity.
    + intros [? | ?]; discriminate.
Qed.

Lemma absent_identifier_witness :
  lookupK KGenre dangling (params_id delete_missing_genre) = None
  ∧ detail KGenre delete_missing_genre dangling
    = (dangling, [Next (HttpError 404 "Genre not found")])
  ∧ update_get KGenre delete_missing_genre dangling
    = (dangling, [Next (HttpError 404 "Genre not found")]).
Proof.
  assert (H : lookupK KGenre dangling (params_id delete_missing_genre) = None)
    by (vm_compute; reflexivity).
  split; [exact H |].
  destruct (absent_identifier KGenre delete_missing_genre dangling H)
    as (Hd & Hu & _).
  split; [exact Hd | exact Hu].
Defined.

(** ** Creating *)

(** The duplicate check of [genre_create_post] finds a Genre exactly
    when one with the submitted name, up to the collation, is stored. *)
Lemma findOne_genre_collision (L : Library) (s : Store) (b : Body) :
  genre_collision L s b →
  ∃ g, List.find (λ g, collation_eq L (g_name (doc_data g)) (genre_chains L b).1)
         (docs Genre s) = Some g
       ∧ genres s !! doc_id g = Some (doc_data g)
       ∧ collation_eq L (g_name (doc_data g)) (genre_chains L b).1 = true.
Proof.
  intros (id & g & Hg & Heq).
  destruct (List.find _ (docs Genre s)) as [d |] eqn:Hfind.
  - apply find_some in Hfind as [Hin Hp]. apply In_docs in Hin.
    exists d. done.
  - eapply find_none in Hfind; [| apply (In_docs Genre s (mkDoc id g)); exact Hg].
    cbn [doc_data] in Hfind. congruence.
Qed.

Lemma findOne_genre_no_collision (L : Library) (s : Store) (b : Body) :
  ¬ genre_collision L s b →
  List.find (λ g, collation_eq L (g_name (doc_data g)) (genre_chains L b).1)
    (docs Genre s) = None.
Proof.
  intros Hno. destruct (List.find _ (docs Genre s)) as [d |] eqn:Hfind; [| done].
  apply find_some in Hfind as [Hin Hp]. apply In_docs in Hin.
  destruct Hno. exists (doc_id d), (doc_data d). done.
Qed.

Lemma no_collision_by_search (L : Library) (s : Store) (b : Body) :
  List.find (λ g, collation_eq L (g_name (doc_data g)) (genre_chains L b).1)
    (docs Genre s) = None →
  ¬ genre_collision L s b.
Proof.
  intros Hnone Hcol.
  destruct (findOne_genre_collision L s b Hcol) as (g & Hfind & _). congruence.
Qed.

(** C7, as stated, fails: the submitted name, trimmed and escaped,
    equals the name of the stored Genre, but the trimmed name has one
    character, validation fails, and the form is rendered again
    instead of a redirect to the stored Genre. *)
Lemma genre_create_post_collision_invalid_name :
  genre_collision ascii_lib escaped_genre (body create_short_genre)
  ∧ ∃ locals,
      genre_create_post ascii_lib env0 create_short_genre escaped_genre
      = (escaped_genre, [RenderFile "views/genre-form.ejs" locals "Create Genre"]).
Proof.
  split.
  - exists id1, {| g_name := "&lt;" |}. split; by vm_compute.
  - eexists. vm_compute. reflexivity.
Qed.

(** C7, amended.  For every store with a Genre whose name equals, up
    to case, the submitted name (trimmed, escaped), a Genre
    create-submit that passes validation inserts nothing, leaves the
    store unchanged, and redirects to the detail location of a stored
    Genre with that name. *)
Theorem genre_create_post_existing_name
  (L : Library) (env : Env) (req : Req) (s : Store) :
  validation_errors L KGenre (body req) = [] →
  genre_collision L s (body req) →
  ∃ id g,
    genres s !! id = Some g
    ∧ collation_eq L (g_name g) (genre_chains L (body req)).1 = true
    ∧ genre_create_post L env req s = (s, [Redirect (detail_url KGenre id)]).
Proof.
  intros Hval Hcol. cbn [validation_errors] in Hval.
  destruct (findOne_genre_collision L s (body req) Hcol) as (g & Hfind & Hg & Heq).
  exists (doc_id g), (doc_data g). split; [done |]. split; [done |].
  run. rewrite Hval, Hfind. reflexivity.
Qed.

Lemma genre_create_post_existing_name_witness :
  validation_errors ascii_lib KGenre (body create_poetry_again) = []
  ∧ genre_collision ascii_lib two_genres (body create_poetry_again)
  ∧ ∃ id g,
      genres two_genres !! id = Some g
      ∧ collation_eq ascii_lib (g_name g)
          (genre_chains ascii_lib (body create_poetry_again)).1 = true
      ∧ genre_create_post ascii_lib env0 create_poetry_again two_genres
        = (two_genres, [Redirect (detail_url KGenre id)]).
Proof.
  assert (H1 : validation_errors ascii_lib KGenre (body create_poetry_again) = [])
    by (vm_compute; reflexivity).
  assert (H2 : genre_collision ascii_lib two_genres (body create_poetry_again))
    by (exists id1, poetry; split; vm_compute; reflexivity).
  split; [exact H1 |]. split; [exact H2 |].
  exact (genre_create_post_existing_name ascii_lib env0 create_poetry_again
           two_genres H1 H2).
Defined.


(** [save] and [findByIdAndUpdate], case by case. *)
Lemma save_new {A} (Mo : Model A) (name : string) (d : Doc A) (s : Store) :
  validate Mo (doc_data d) = true →
  coll Mo s !! doc_id d = None →
  save Mo name d s
  = (set_coll Mo (<[doc_id d := doc_data d]> (coll Mo s)) s, [], Ret tt).
Proof. intros Hv Hn. unfold save. by rewrite Hv, Hn. Qed.

Lemma save_invalid {A} (Mo : Model A) (name : string) (d : Doc A) (s : Store) :
  validate Mo (doc_data d) = false →
  save Mo name d s = (s, [], Throw (ValidationError name)).
Proof. intros Hv. unfold save. by rewrite Hv. Qed.

Lemma findByIdAndUpdate_Some {A} (Mo : Model A) (id : Id) (d : Doc A) (s : Store) old :
  coll Mo s !! id = Some old →
  findByIdAndUpdate Mo id d s
  = (set_coll Mo (<[id := upd Mo old (doc_data d)]> (coll Mo s)) s, [],
     Ret (Some (mkDoc id old))).
Proof. intros Ho. unfold findByIdAndUpdate. by rewrite Ho. Qed.

Lemma findByIdAndUpdate_None {A} (Mo : Model A) (id : Id) (d : Doc A) (s : Store) :
  coll Mo s !! id = None →
  findByIdAndUpdate Mo id d s = (s, [], Ret None).
Proof. intros Ho. unfold findByIdAndUpdate. by rewrite Ho. Qed.

Lemma lookupK_write_eq (id : Id) (e : Entity) (s : Store) :
  lookupK (kind_of e) (write id e s) id = Some e.
Proof. destruct e; cbn; by rewrite lookup_insert_eq. Qed.

Lemma lookupK_write_ne (k' : Kind) (id id' : Id) (e : Entity) (s : Store) :
  (k', id') ≠ (kind_of e, id) →
  lookupK k' (write id e s) id' = lookupK k' s id'.
Proof.
  intros Hne. destruct e, k'; cbn in *; try reflexivity;
    rewrite lookup_insert_ne; (reflexivity || congruence).
Qed.

Lemma count_write_new (id : Id) (e : Entity) (s : Store) :
  lookupK (kind_of e) s id = None →
  count (kind_of e) (write id e s) = S (count (kind_of e) s).
Proof.
  intros Hn. destruct e; cbn in *; apply fmap_None in Hn;
    by rewrite map_size_insert_None.
Qed.

Lemma count_write_old (id : Id) (e : Entity) (s : Store) :
  is_Some (lookupK (kind_of e) s id) →
  count (kind_of e) (write id e s) = count (kind_of e) s.
Proof.
  intros Hs. destruct e; cbn in *; apply fmap_is_Some in Hs;
    by rewrite map_size_insert_Some.
Qed.

Lemma kind_of_candidate (L : Library) (k : Kind) (env : Env) (b : Body) :
  kind_of (candidate L k env b) = k.
Proof. by destruct k. Qed.

(** A create-submit that passes validation and the schema, with a
    fresh identifier and no Genre of the same name, writes the
    candidate and redirects. *)
Lemma create_post_valid (L : Library) (k : Kind) (env : Env) (req : Req) (s : Store) :
  validation_errors L k (body req) = [] →
  schema_ok (candidate L k env (body req)) = true →
  lookupK k s (fresh_id env) = None →
  (k = KGenre → ¬ genre_collision L s (body req)) →
  create_post L k env req s
  = (write (fresh_id env) (candidate L k env (body req)) s,
     [Redirect (after_create k (fresh_id env))]).
Proof.
  intros Hval Hschema Hfresh Hcol.
  destruct k; cbn [validation_errors] in Hval; cbn [schema_ok candidate] in Hschema;
    cbn [lookupK] in Hfresh; apply fmap_None in Hfresh; run; rewrite Hval.
  - rewrite save_new by done. reflexivity.
  - rewrite save_new by done. reflexivity.
  - rewrite (findOne_genre_no_collision L s (body req)) by auto.
    rewrite save_new by done. reflexivity.
  - rewrite save_new by done. reflexivity.
Qed.

(** C3, as stated, fails: the create-submit of a valid Author
    persists the Author and redirects to the list of authors; that of
    a valid Genre with a new name persists the Genre and redirects,
    but not to the detail location of the new Genre either. *)
Lemma author_create_post_redirects_to_list :
  validation_errors ascii_lib KAuthor (body create_austen) = []
  ∧ (create_post ascii_lib KAuthor env0 create_austen empty_store).2
    = [Redirect "/catalog/authors"]
  ∧ is_Some (lookupK KAuthor
               (create_post ascii_lib KAuthor env0 create_austen empty_store).1
               (fresh_id env0))
  ∧ detail_url KAuthor (fresh_id env0) ≠ "/catalog/authors"
  ∧ validation_errors ascii_lib KGenre (body create_fantasy) = []
  ∧ (create_post ascii_lib KGenre env0 create_fantasy two_genres).2
    = [Redirect "catalog/genres"]
  ∧ lookupK KGenre (create_post ascii_lib KGenre env0 create_fantasy two_genres).1
      (fresh_id env0) = Some (EGenre {| g_name := "Fantasy" |})
  ∧ genre_url (mkDoc (fresh_id env0) {| g_name := "Fantasy" |}) ≠ "catalog/genres".
Proof.
  split; [by vm_compute |]. split; [by vm_compute |].
  split; [vm_compute; eauto |]. split; [vm_compute; discriminate |].
  split; [by vm_compute |]. split; [by vm_compute |].
  split; [by vm_compute | vm_compute; discriminate].
Qed.

(** C3, amended.  For every kind, a create-submit whose validation
    succeeds, whose candidate passes the validators of the model's
    schema, whose new identifier is not in use and which, for a Genre,
    has no Genre of the same name up to case, persists exactly one new
    document, the candidate, changes no other document, and answers
    with one redirect.  A Book and a BookInstance redirect to the
    detail location of the new document; an Author redirects to the
    list of authors, not to the detail location.  Where the redirect
    of a Genre goes is left open. *)
Theorem create_post_persists_one
  (L : Library) (k : Kind) (env : Env) (req : Req) (s : Store) :
  validation_errors L k (body req) = [] →
  schema_ok (candidate L k env (body req)) = true →
  lookupK k s (fresh_id env) = None →
  (k = KGenre → ¬ genre_collision L s (body req)) →
  (∃ url, (create_post L k env req s).2 = [Redirect url]
          ∧ ∀ u, created_location k (fresh_id env) = Some u → url = u)
  ∧ lookupK k (create_post L k env req s).1 (fresh_id env)
    = Some (candidate L k env (body req))
  ∧ (∀ k' id', (k', id') ≠ (k, fresh_id env) →
       lookupK k' (create_post L k env req s).1 id' = lookupK k' s id')
  ∧ count k (create_post L k env req s).1 = S (count k s).
Proof.
  intros Hval Hschema Hfresh Hcol.
  rewrite create_post_valid by done. cbn [fst snd].
  pose proof (kind_of_candidate L k env (body req)) as Hk.
  split.
  { eexists. split; [reflexivity |].
    intros u Hu. destruct k; cbn in Hu |- *; congruence. }
  split; [rewrite <- Hk at 1; apply lookupK_write_eq |].
  split; [intros k' id' Hne; apply lookupK_write_ne; by rewrite Hk |].
  rewrite <- Hk at 1 3. apply count_write_new. by rewrite Hk.
Qed.

Lemma create_post_persists_one_witness :
  (validation_errors ascii_lib KBookInstance (body create_copy) = []
   ∧ schema_ok (candidate ascii_lib KBookInstance env0 (body create_copy)) = true
   ∧ lookupK KBookInstance library (fresh_id env0) = None
   ∧ (create_post ascii_lib KBookInstance env0 create_copy library).2
     = [Redirect (detail_url KBookInstance (fresh_id env0))]
   ∧ lookupK KBookInstance
       (create_post ascii_lib KBookInstance env0 create_copy library).1 (fresh_id env0)
     = Some (candidate ascii_lib KBookInstance env0 (body create_copy))
   ∧ count KBookInstance (create_post ascii_lib KBookInstance env0 create_copy library).1
     = S (count KBookInstance library))
  ∧ (validation_errors ascii_lib KGenre (body create_fantasy) = []
     ∧ schema_ok (candidate ascii_lib KGenre env0 (body create_fantasy)) = true
     ∧ lookupK KGenre two_genres (fresh_id env0) = None
     ∧ ¬ genre_collision ascii_lib two_genres (body create_fantasy)
     ∧ (∃ url, (create_post ascii_lib KGenre env0 create_fantasy two_genres).2
               = [Redirect url])
     ∧ count KGenre (create_post ascii_lib KGenre env0 create_fantasy two_genres).1
       = S (count KGenre two_genres))
  ∧ (validation_errors ascii_lib KAuthor (body create_austen) = []
     ∧ schema_ok (candidate ascii_lib KAuthor env0 (body create_austen)) = true
     ∧ lookupK KAuthor library (fresh_id env0) = None
     ∧ (create_post ascii_lib KAuthor env0 create_austen library).2
       = [Redirect (list_url KAuthor)]
     ∧ count KAuthor (create_post ascii_lib KAuthor env0 create_austen library).1
       = S (count KAuthor library)).
Proof.
  split; [| split].
  - assert (H1 : validation_errors ascii_lib KBookInstance (body create_copy) = [])
      by (vm_compute; reflexivity).
    assert (H2 : schema_ok (candidate ascii_lib KBookInstance env0 (body create_copy))
                 = true) by (vm_compute; reflexivity).
    assert (H3 : lookupK KBookInstance library (fresh_id env0) = None)
      by (vm_compute; reflexivity).
    assert (H4 : KBookInstance = KGenre
                 → ¬ genre_collision ascii_lib library (body create_copy))
      by discriminate.
    split; [exact H1 |]. split; [exact H2 |]. split; [exact H3 |].
    destruct (create_post_persists_one ascii_lib KBookInstance env0 create_copy
                library H1 H2 H3 H4) as ((url & Ha & Hu) & Hb & _ & Hc).
    split; [| split; [exact Hb | exact Hc]].
    rewrite Ha. rewrite (Hu _ eq_refl). reflexivity.
  - assert (H1 : validation_errors ascii_lib KGenre (body create_fantasy) = [])
      by (vm_compute; reflexivity).
    assert (H2 : schema_ok (candidate ascii_lib KGenre env0 (body create_fantasy))
                 = true) by (vm_compute; reflexivity).
    assert (H3 : lookupK KGenre two_genres (fresh_id env0) = None)
      by (vm_compute; reflexivity).
    assert (H4 : ¬ genre_collision ascii_lib two_genres (body create_fantasy))
      by (apply no_collision_by_search; vm_compute; reflexivity).
    split; [exact H1 |]. split; [exact H2 |]. split; [exact H3 |].
    split; [exact H4 |].
    destruct (create_post_persists_one ascii_lib KGenre env0 create_fantasy
                two_genres H1 H2 H3 (λ _, H4)) as ((url & Ha & _) & _ & _ & Hc).
    split; [exists url; exact Ha | exact Hc].
  - assert (H1 : validation_errors ascii_lib KAuthor (body create_austen) = [])
      by (vm_compute; reflexivity).
    assert (H2 : schema_ok (candidate ascii_lib KAuthor env0 (body create_austen))
                 = true) by (vm_compute; reflexivity).
    assert (H3 : lookupK KAuthor library (fresh_id env0) = None)
      by (vm_compute; reflexivity).
    assert (H4 : KAuthor = KGenre
                 → ¬ genre_collision ascii_lib library (body create_austen))
      by discriminate.
    split; [exact H1 |]. split; [exact H2 |]. split; [exact H3 |].
    destruct (create_post_persists_one ascii_lib KAuthor env0 create_austen
                library H1 H2 H3 H4) as ((url & Ha & Hu) & _ & _ & Hc).
    split; [| exact Hc].
    rewrite Ha. rewrite (Hu _ eq_refl). reflexivity.
Defined.

(** ** Updating *)

Lemma kind_of_lookupK (k : Kind) (s : Store) (id : Id) (e : Entity) :
  lookupK k s id = Some e → kind_of e = k.
Proof. destruct k; cbn; intros (? & _ & ->)%fmap_Some; reflexivity. Qed.

Lemma kind_of_updated (old new : Entity) :
  kind_of old = kind_of new → kind_of (updated old new) = kind_of new.
Proof. destruct old, new; cbn; congruence. Qed.

(** An update-submit that passes validation, for a stored document,
    writes the updated fields under the same identifier and
    redirects to its detail location. *)
Lemma update_post_valid
  (L : Library) (k : Kind) (env : Env) (req : Req) (s : Store) (old : Entity) :
  validation_errors L k (body req) = [] →
  lookupK k s (params_id req) = Some old →
  update_post L k env req s
  = (write (params_id req) (updated old (candidate L k env (body req))) s,
     [Redirect (detail_url k (params_id req))]).
Proof.
  intros Hval Hold.
  destruct k; cbn [validation_errors] in Hval; cbn [lookupK] in Hold;
    apply fmap_Some in Hold as (o & Ho & ->); run; rewrite Hval;
    rewrite (findByIdAndUpdate_Some _ _ _ _ o) by done; reflexivity.
Qed.

(** C8, as stated, fails: no Genre has the identifier [id3], the
    persistence call resolves to no document, and the update-submit
    still redirects, to the location derived from the candidate. *)
Lemma genre_update_post_redirects_without_document :
  validation_errors ascii_lib KGenre (body update_missing_genre) = []
  ∧ lookupK KGenre two_genres (params_id update_missing_genre) = None
  ∧ (findByIdAndUpdate Genre id3 (mkDoc id3 {| g_name := "Comedy" |}) two_genres).2
    = Ret None
  ∧ update_post ascii_lib KGenre env0 update_missing_genre two_genres
    = (two_genres, [Redirect (genre_url (mkDoc id3 {| g_name := "Comedy" |}))]).
Proof. repeat split; by vm_compute. Qed.

(** The Book handler does take the location from the document the
    persistence call resolves to: without one it throws. *)
Lemma book_update_post_without_document :
  validation_errors ascii_lib KBook (body update_missing_book) = []
  ∧ lookupK KBook two_genres (params_id update_missing_book) = None
  ∧ update_post ascii_lib KBook env0 update_missing_book two_genres
    = (two_genres,
       [Next (TypeError "Cannot read properties of null (reading 'url')")]).
Proof. repeat split; by vm_compute. Qed.

(** An update-submit that passes validation, for an identifier
    without a document: the persistence call resolves to no document
    and writes nothing; the Book handler then reads [url] of [null] and
    throws, the other handlers redirect to the location of the
    candidate. *)
Lemma update_post_absent
  (L : Library) (k : Kind) (env : Env) (req : Req) (s : Store) :
  validation_errors L k (body req) = [] →
  lookupK k s (params_id req) = None →
  update_post L k env req s
  = (s, match k with
        | KBook => [Next (TypeError "Cannot read properties of null (reading 'url')")]
        | _ => [Redirect (detail_url k (params_id req))]
        end).
Proof.
  intros Hval Habs.
  destruct k; cbn [validation_errors] in Hval; cbn [lookupK] in Habs;
    apply fmap_None in Habs; run; rewrite Hval;
    rewrite findByIdAndUpdate_None by done; reflexivity.
Qed.

(** C8, amended.  For every kind, an update-submit with valid data
    constructs the candidate under the identifier of the request
    path.  When a document is stored under that identifier it is
    updated in place (no document is inserted, no other document
    changes) and the response redirects to its detail location.  Only
    the Book handler takes that location from the document the
    persistence call resolves to: when no document has the identifier
    nothing is written, the Book handler throws, and the Genre, Author
    and BookInstance handlers still redirect, to the location derived
    from the candidate. *)
Theorem update_post_in_place
  (L : Library) (k : Kind) (env : Env) (req : Req) (s : Store) :
  validation_errors L k (body req) = [] →
  (∀ old, lookupK k s (params_id req) = Some old →
     (update_post L k env req s).2 = [Redirect (detail_url k (params_id req))]
     ∧ lookupK k (update_post L k env req s).1 (params_id req)
       = Some (updated old (candidate L k env (body req)))
     ∧ (∀ k' id', (k', id') ≠ (k, params_id req) →
          lookupK k' (update_post L k env req s).1 id' = lookupK k' s id')
     ∧ count k (update_post L k env req s).1 = count k s)
  ∧ (lookupK k s (params_id req) = None →
       (update_post L k env req s).1 = s
       ∧ match k with
         | KBook =>
             ∃ message, (update_post L k env req s).2 = [Next (TypeError message)]
         | _ =>
             (update_post L k env req s).2
             = [Redirect (detail_url k (params_id req))]
         end).
Proof.
  intros Hval. split.
  - intros old Hold.
    rewrite (update_post_valid L k env req s old) by done. cbn [fst snd].
    pose proof (kind_of_candidate L k env (body req)) as Hc.
    pose proof (kind_of_lookupK k s _ old Hold) as Ho.
    assert (Hk : kind_of (updated old (candidate L k env (body req))) = k)
      by (rewrite kind_of_updated; congruence).
    split; [reflexivity |].
    split; [rewrite <- Hk at 1; apply lookupK_write_eq |].
    split; [intros k' id' Hne; apply lookupK_write_ne; by rewrite Hk |].
    rewrite <- Hk at 1 3. apply count_write_old. rewrite Hk, Hold. eauto.
  - intros Habs. rewrite (update_post_absent L k env req s) by done.
    cbn [fst snd]. split; [reflexivity |].
    destruct k; try reflexivity. eexists. reflexivity.
Qed.

Lemma update_post_in_place_witness :
  (validation_errors ascii_lib KGenre (body rename_poetry) = []
   ∧ lookupK KGenre two_genres (params_id rename_poetry) = Some (EGenre poetry)
   ∧ (update_post ascii_lib KGenre env0 rename_poetry two_genres).2
     = [Redirect (detail_url KGenre (params_id rename_poetry))]
   ∧ lookupK KGenre (update_post ascii_lib KGenre env0 rename_poetry two_genres).1
       (params_id rename_poetry)
     = Some (updated (EGenre poetry)
               (candidate ascii_lib KGenre env0 (body rename_poetry)))
   ∧ count KGenre (update_post ascii_lib KGenre env0 rename_poetry two_genres).1
     = count KGenre two_genres)
  ∧ (validation_errors ascii_lib KAuthor (body update_missing_author) = []
     ∧ lookupK KAuthor two_genres (params_id update_missing_author) = None
     ∧ (update_post ascii_lib KAuthor env0 update_missing_author two_genres).1
       = two_genres
     ∧ (update_post ascii_lib KAuthor env0 update_missing_author two_genres).2
       = [Redirect (detail_url KAuthor (params_id update_missing_author))])
  ∧ (validation_errors ascii_lib KBook (body update_missing_book) = []
     ∧ lookupK KBook two_genres (params_id update_missing_book) = None
     ∧ ∃ message,
         (update_post ascii_lib KBook env0 update_missing_book two_genres).2
         = [Next (TypeError message)]).
Proof.
  split; [| split].
  - assert (H1 : validation_errors ascii_lib KGenre (body rename_poetry) = [])
      by (vm_compute; reflexivity).
    assert (H2 : lookupK KGenre two_genres (params_id rename_poetry)
                 = Some (EGenre poetry)) by (vm_compute; reflexivity).
    split; [exact H1 |]. split; [exact H2 |].
    destruct (proj1 (update_post_in_place ascii_lib KGenre env0 rename_poetry
                       two_genres H1) (EGenre poetry) H2) as (Ha & Hb & _ & Hc).
    split; [exact Ha |]. split; [exact Hb | exact Hc].
  - assert (H1 : validation_errors ascii_lib KAuthor (body update_missing_author) = [])
      by (vm_compute; reflexivity).
    assert (H2 : lookupK KAuthor two_genres (params_id update_missing_author) = None)
      by (vm_compute; reflexivity).
    split; [exact H1 |]. split; [exact H2 |].
    exact (proj2 (update_post_in_place ascii_lib KAuthor env0 update_missing_author
                    two_genres H1) H2).
  - assert (H1 : validation_errors ascii_lib KBook (body update_missing_book) = [])
      by (vm_compute; reflexivity).
    assert (H2 : lookupK KBook two_genres (params_id update_missing_book) = None)
      by (vm_compute; reflexivity).
    split; [exact H1 |]. split; [exact H2 |].
    exact (proj2 (proj2 (update_post_in_place ascii_lib KBook env0
                           update_missing_book two_genres H1) H2)).
Defined.

(** ** The genre field of the book forms *)

(** C9.  In the book create-submit and update-submit a genre field
    that is absent from the submission becomes the empty collection,
    and a single value a collection of one element, before the chains
    run; the Book that is persisted then has the empty collection as
    its genre. *)
Theorem book_genre_absent_is_empty
  (L : Library) (env : Env) (req : Req) (s : Store) :
  b_genre (body req) = GAbsent →
  validation_errors L KBook (body req) = [] →
  genre_to_array (b_genre (body req)) = []
  ∧ (∀ x, genre_to_array (GScalar x) = [x])
  ∧ bf_genre (book_chains L (body req)).1 = []
  ∧ (schema_ok (candidate L KBook env (body req)) = true →
     books s !! fresh_id env = None →
       ∃ b, books (book_create_post L env req s).1 !! fresh_id env = Some b
            ∧ bk_genre b = [])
  ∧ (is_Some (books s !! params_id req) →
       ∃ b, books (book_update_post L req s).1 !! params_id req = Some b
            ∧ bk_genre b = []).
Proof.
  intros Habs Hval.
  assert (Hg : bf_genre (book_chains L (body req)).1 = [])
    by (cbn; by rewrite Habs).
  split; [by rewrite Habs |]. split; [done |]. split; [done |]. split.
  - intros Hschema Hfresh.
    pose proof (create_post_valid L KBook env req s Hval Hschema) as Hrun.
    cbn [create_post lookupK] in Hrun. rewrite Hrun by (by rewrite ?Hfresh).
    cbn [fst candidate write set_coll Book books].
    rewrite lookup_insert_eq. eexists. split; [reflexivity |]. exact Hg.
  - intros [old Hold].
    pose proof (update_post_valid L KBook env req s (EBook old) Hval) as Hrun.
    cbn [update_post lookupK] in Hrun. rewrite Hrun by (by rewrite Hold).
    cbn [fst candidate updated write set_coll upd Book books].
    rewrite lookup_insert_eq. eexists. split; [reflexivity |]. exact Hg.
Qed.

Lemma book_genre_absent_is_empty_witness :
  b_genre (body create_persuasion) = GAbsent
  ∧ validation_errors ascii_lib KBook (body create_persuasion) = []
  ∧ (∃ b, books (book_create_post ascii_lib env0 create_persuasion library).1
            !! fresh_id env0 = Some b ∧ bk_genre b = [])
  ∧ (∃ b, books (book_update_post ascii_lib create_persuasion library).1
            !! params_id create_persuasion = Some b ∧ bk_genre b = []).
Proof.
  assert (H1 : b_genre (body create_persuasion) = GAbsent) by reflexivity.
  assert (H2 : validation_errors ascii_lib KBook (body create_persuasion) = [])
    by (vm_compute; reflexivity).
  split; [exact H1 |]. split; [exact H2 |].
  destruct (book_genre_absent_is_empty ascii_lib env0 create_persuasion library H1 H2)
    as (_ & _ & _ & Hc & Hu).
  split.
  - apply Hc; vm_compute; reflexivity.
  - apply Hu. vm_compute. eauto.
Defined.

(** ** Validation failures *)

(** When validation fails, the create-submit and update-submit
    handlers of Book, Author and Genre, and those of BookInstance
    when the submitted book casts to an identifier, write nothing and
    render the form again with the errors and the candidate. *)
Lemma create_post_invalid
  (L : Library) (k : Kind) (env : Env) (req : Req) (s : Store) :
  validation_errors L k (body req) ≠ [] →
  (k = KBookInstance →
     is_Some (castObjectId L (if_book (bookinstance_chains L (body req)).1))) →
  ∃ locals title,
    create_post L k env req s = (s, [RenderFile (form_view k) locals title])
    ∧ local "errors" locals = Some (VErrors (validation_errors L k (body req)))
    ∧ local (candidate_key k) locals
      = Some (candidate_local k (fresh_id env) (candidate L k env (body req))).
Proof.
  intros Hval Hcast.
  destruct k; cbn [validation_errors] in *; run;
    destruct (snd _) as [| e errors] eqn:Herr; try congruence.
  - eexists _, _. split; [reflexivity |]. split; reflexivity.
  - eexists _, _. split; [reflexivity |]. split; reflexivity.
  - eexists _, _. split; [reflexivity |]. split; reflexivity.
  - destruct (Hcast eq_refl) as [b Hb].
    unfold instance_of_fields, new_BookInstance; cbn [doc_data bi_book].
    rewrite Hb. eexists _, _. split; [reflexivity |].
    split; [reflexivity |]. cbn in Hb |- *. rewrite Hb. reflexivity.
Qed.

Lemma update_post_invalid
  (L : Library) (k : Kind) (env : Env) (req : Req) (s : Store) :
  validation_errors L k (body req) ≠ [] →
  (k = KBookInstance →
     is_Some (castObjectId L (if_book (bookinstance_chains L (body req)).1))) →
  ∃ locals title,
    update_post L k env req s = (s, [RenderFile (form_view k) locals title])
    ∧ local "errors" locals = Some (VErrors (validation_errors L k (body req)))
    ∧ local (candidate_key k) locals
      = Some (candidate_local k (params_id req) (candidate L k env (body req))).
Proof.
  intros Hval Hcast.
  destruct k; cbn [validation_errors] in *; run;
    destruct (snd _) as [| e errors] eqn:Herr; try congruence.
  - eexists _, _. split; [reflexivity |]. split; reflexivity.
  - eexists _, _. split; [reflexivity |]. split; reflexivity.
  - eexists _, _. split; [reflexivity |]. split; reflexivity.
  - destruct (Hcast eq_refl) as [b Hb].
    unfold instance_of_fields, new_BookInstance; cbn [doc_data bi_book].
    rewrite Hb. eexists _, _. split; [reflexivity |].
    split; [reflexivity |]. cbn in Hb |- *. rewrite Hb. reflexivity.
Qed.

(** When validation fails and the submitted book does not cast to an
    identifier, [bookInstance.book] is not set and reading its [_id]
    throws: both BookInstance submit handlers end in [next(err)]. *)
Lemma bookinstance_post_invalid_without_book
  (L : Library) (env : Env) (req : Req) (s : Store) :
  validation_errors L KBookInstance (body req) ≠ [] →
  castObjectId L (if_book (bookinstance_chains L (body req)).1) = None →
  bookinstance_create_post L env req s
  = (s, [Next (TypeError "Cannot read properties of undefined (reading '_id')")])
  ∧ bookinstance_update_post L env req s
    = (s, [Next (TypeError "Cannot read properties of undefined (reading '_id')")]).
Proof.
  intros Hval Hcast. cbn [validation_errors] in Hval.
  split; run; (destruct (snd _) as [| e errors] eqn:Herr; [congruence |]);
    unfold instance_of_fields, new_BookInstance; cbn [doc_data bi_book];
    rewrite Hcast; reflexivity.
Qed.

(** C1 fails on the code: a BookInstance create-submit without a
    book fails validation ("Book must be specified"), and instead of
    the form with the errors the handler passes a TypeError to
    [next]. *)
Lemma bookinstance_create_post_without_book_throws :
  validation_errors ascii_lib KBookInstance (body create_copy_without_book)
  = [{| err_path := "book"; err_msg := "Book must be specified" |}]
  ∧ create_post ascii_lib KBookInstance env0 create_copy_without_book library
    = (library,
       [Next (TypeError "Cannot read properties of undefined (reading '_id')")])
  ∧ update_post ascii_lib KBookInstance env0 create_copy_without_book library
    = (library,
       [Next (TypeError "Cannot read properties of undefined (reading '_id')")]).
Proof. repeat split; by vm_compute. Qed.

(** * Further properties *)

Ltac run_all :=
  cbv beta iota zeta delta
    [genre_list author_list genre_create_get author_create_get book_create_get
     bookinstance_create_get create_get find_sorted];
  run.

(** ** Reading never writes *)

(** X1.  The handlers of the GET routes never write: the home page,
    the two sorted lists, and for every kind the empty form, the
    detail page, the delete confirmation and the update form leave the
    store as it is, whether or not the identifier has a document. *)
Theorem get_handlers_read_only (k : Kind) (req : Req) (s : Store) :
  (index s).1 = s
  ∧ (genre_list s).1 = s
  ∧ (author_list s).1 = s
  ∧ (create_get k s).1 = s
  ∧ (detail k req s).1 = s
  ∧ (delete_get k req s).1 = s
  ∧ (update_get k req s).1 = s.
Proof.
  repeat split; try (destruct k); run_all; try reflexivity;
    repeat match goal with
           | |- context [?m !! ?i] =>
               lazymatch m with
               | books s => idtac | authors s => idtac
               | genres s => idtac | bookinstances s => idtac
               end;
               destruct (m !! i); cbn [fst snd]
           end; try reflexivity.
  cbn. destruct (bi_book b) as [bk |]; cbn; [destruct (books s !! bk) |]; reflexivity.
Qed.

(** ** Detail pages *)

Lemma detail_absent_run (k : Kind) (req : Req) (s : Store) :
  lookupK k s (params_id req) = None →
  detail k req s = (s, [Next (not_found k)]).
Proof.
  intros Habs. destruct k; cbn in Habs; apply fmap_None in Habs;
    run; by rewrite Habs.
Qed.

Lemma detail_stored_run (k : Kind) (req : Req) (s : Store) (e : Entity) :
  lookupK k s (params_id req) = Some e →
  ∃ locals title,
    detail k req s = (s, [RenderFile (detail_view k) locals title])
    ∧ shows (params_id req) e locals
    ∧ (∀ key v, dependents_local k s (params_id req) = Some (key, v) →
         local key locals = Some v).
Proof.
  intros Hst.
  destruct k; cbn in Hst; apply fmap_Some in Hst as (o & Ho & ->);
    run; rewrite Ho; run; eexists _, _; (split; [reflexivity |]); split.
  - eexists. split; [reflexivity |]. done.
  - intros key v [= <- <-]. reflexivity.
  - reflexivity.
  - intros key v [= <- <-]. reflexivity.
  - reflexivity.
  - intros key v [= <- <-]. reflexivity.
  - eexists. split; [reflexivity |]. done.
  - intros key v [=].
Qed.

(** X2.  A detail page answers Not-Found exactly when the identifier
    has no document of the kind; for a stored document it renders the
    detail view of the kind with that document and with its current
    dependents (the Books of the Author or Genre, the copies of the
    Book). *)
Theorem detail_not_found_iff_absent (k : Kind) (req : Req) (s : Store) :
  (lookupK k s (params_id req) = None
   ↔ detail k req s = (s, [Next (not_found k)]))
  ∧ (∀ e, lookupK k s (params_id req) = Some e →
       ∃ locals title,
         detail k req s = (s, [RenderFile (detail_view k) locals title])
         ∧ shows (params_id req) e locals
         ∧ (∀ key v, dependents_local k s (params_id req) = Some (key, v) →
              local key locals = Some v)).
Proof.
  split; [| intros e; apply detail_stored_run].
  split; [apply detail_absent_run |].
  intros Hnf. destruct (lookupK k s (params_id req)) as [e |] eqn:He; [| done].
  destruct (detail_stored_run k req s e He) as (locals & title & Hrun & _).
  congruence.
Qed.

(** ** Round trips *)

(** X3.  Create, then read: after a create-submit that passes
    validation and the schema (with an unused new identifier and, for
    a Genre, no Genre of that name), the detail page of the new
    identifier does not answer Not-Found: it renders the detail view
    with the fields of the candidate. *)
Theorem create_then_detail
  (L : Library) (k : Kind) (env : Env) (req req' : Req) (s : Store) :
  validation_errors L k (body req) = [] →
  schema_ok (candidate L k env (body req)) = true →
  lookupK k s (fresh_id env) = None →
  (k = KGenre → ¬ genre_collision L s (body req)) →
  params_id req' = fresh_id env →
  ∃ locals title,
    detail k req' (create_post L k env req s).1
    = ((create_post L k env req s).1, [RenderFile (detail_view k) locals title])
    ∧ shows (fresh_id env) (candidate L k env (body req)) locals.
Proof.
  intros Hval Hschema Hfresh Hcol Hid.
  rewrite create_post_valid by done. cbn [fst].
  pose proof (kind_of_candidate L k env (body req)) as Hk.
  destruct (detail_stored_run k req'
              (write (fresh_id env) (candidate L k env (body req)) s)
              (candidate L k env (body req)))
    as (locals & title & Hrun & Hshows & _).
  { rewrite Hid. rewrite <- Hk at 1. apply lookupK_write_eq. }
  exists locals, title. rewrite Hid in Hshows. done.
Qed.

Lemma create_then_detail_witness :
  validation_errors ascii_lib KGenre (body create_fantasy) = []
  ∧ schema_ok (candidate ascii_lib KGenre env0 (body create_fantasy)) = true
  ∧ lookupK KGenre two_genres (fresh_id env0) = None
  ∧ ¬ genre_collision ascii_lib two_genres (body create_fantasy)
  ∧ params_id show_new = fresh_id env0
  ∧ ∃ locals title,
      detail KGenre show_new
        (create_post ascii_lib KGenre env0 create_fantasy two_genres).1
      = ((create_post ascii_lib KGenre env0 create_fantasy two_genres).1,
         [RenderFile (detail_view KGenre) locals title])
      ∧ shows (fresh_id env0)
          (candidate ascii_lib KGenre env0 (body create_fantasy)) locals.
Proof.
  assert (H1 : validation_errors ascii_lib KGenre (body create_fantasy) = [])
    by (vm_compute; reflexivity).
  assert (H2 : schema_ok (candidate ascii_lib KGenre env0 (body create_fantasy))
               = true) by (vm_compute; reflexivity).
  assert (H3 : lookupK KGenre two_genres (fresh_id env0) = None)
    by (vm_compute; reflexivity).
  assert (H4 : ¬ genre_collision ascii_lib two_genres (body create_fantasy))
    by (apply no_collision_by_search; vm_compute; reflexivity).
  assert (H5 : params_id show_new = fresh_id env0) by reflexivity.
  split; [exact H1 |]. split; [exact H2 |]. split; [exact H3 |].
  split; [exact H4 |]. split; [exact H5 |].
  exact (create_then_detail ascii_lib KGenre env0 create_fantasy show_new
           two_genres H1 H2 H3 (λ _, H4) H5).
Defined.

(** X4.  Update, then read: after an update-submit that passes
    validation, for a stored document, the detail page of the same
    identifier renders the detail view with the updated fields. *)
Theorem update_then_detail
  (L : Library) (k : Kind) (env : Env) (req : Req) (s : Store) (old : Entity) :
  validation_errors L k (body req) = [] →
  lookupK k s (params_id req) = Some old →
  ∃ locals title,
    detail k req (update_post L k env req s).1
    = ((update_post L k env req s).1, [RenderFile (detail_view k) locals title])
    ∧ shows (params_id req) (updated old (candidate L k env (body req))) locals.
Proof.
  intros Hval Hold.
  rewrite (update_post_valid L k env req s old) by done. cbn [fst].
  pose proof (kind_of_candidate L k env (body req)) as Hc.
  pose proof (kind_of_lookupK k s _ old Hold) as Ho.
  assert (Hk : kind_of (updated old (candidate L k env (body req))) = k)
    by (rewrite kind_of_updated; congruence).
  destruct (detail_stored_run k req
              (write (params_id req) (updated old (candidate L k env (body req))) s)
              (updated old (candidate L k env (body req))))
    as (locals & title & Hrun & Hshows & _).
  { rewrite <- Hk at 1. apply lookupK_write_eq. }
  exists locals, title. done.
Qed.

Lemma update_then_detail_witness :
  validation_errors ascii_lib KGenre (body rename_poetry) = []
  ∧ lookupK KGenre two_genres (params_id rename_poetry) = Some (EGenre poetry)
  ∧ ∃ locals title,
      detail KGenre rename_poetry
        (update_post ascii_lib KGenre env0 rename_poetry two_genres).1
      = ((update_post ascii_lib KGenre env0 rename_poetry two_genres).1,
         [RenderFile (detail_view KGenre) locals title])
      ∧ shows (params_id rename_poetry)
          (updated (EGenre poetry)
             (candidate ascii_lib KGenre env0 (body rename_poetry))) locals.
Proof.
  assert (H1 : validation_errors ascii_lib KGenre (body rename_poetry) = [])
    by (vm_compute; reflexivity).
  assert (H2 : lookupK KGenre two_genres (params_id rename_poetry)
               = Some (EGenre poetry)) by (vm_compute; reflexivity).
  split; [exact H1 |]. split; [exact H2 |].
  exact (update_then_detail ascii_lib KGenre env0 rename_poetry two_genres
           (EGenre poetry) H1 H2).
Defined.

(** ** More on deleting *)

(** A delete-submit either writes nothing or, the identifier of the
    path having no dependent, removes the document the form names. *)
Lemma delete_post_cases (k : Kind) (req : Req) (s : Store) :
  (delete_post k req s).1 = s
  ∨ dependents k s (params_id req) = []
    ∧ (delete_post k req s).1
      = match k with
        | KBook => set_coll Book (delete (body_id k (body req)) (books s)) s
        | KAuthor => set_coll Author (delete (body_id k (body req)) (authors s)) s
        | KGenre => set_coll Genre (delete (body_id k (body req)) (genres s)) s
        | KBookInstance =>
            set_coll BookInstance (delete (body_id k (body req)) (bookinstances s)) s
        end.
Proof.
  destruct k; cbn [dependents]; run.
  - destruct (books s !! params_id req);
      destruct (List.filter _ _); cbn [length Nat.ltb Nat.leb fst map]; auto.
  - destruct (List.filter _ _); cbn [length Nat.ltb Nat.leb fst map]; auto.
  - destruct (List.filter _ _); cbn [length Nat.ltb Nat.leb fst map]; auto.
  - cbn [fst]. auto.
Qed.

Lemma delete_post_unblocked_run (k : Kind) (req : Req) (s : Store) :
  is_Some (lookupK k s (params_id req)) →
  dependents k s (params_id req) = [] →
  delete_post k req s
  = (match k with
     | KBook => set_coll Book (delete (body_id k (body req)) (books s)) s
     | KAuthor => set_coll Author (delete (body_id k (body req)) (authors s)) s
     | KGenre => set_coll Genre (delete (body_id k (body req)) (genres s)) s
     | KBookInstance =>
         set_coll BookInstance (delete (body_id k (body req)) (bookinstances s)) s
     end, [Redirect (list_url k)]).
Proof.
  intros Hex Hdep.
  destruct k; cbn in Hdep; try apply map_nil, zero_length in Hdep; run.
  - destruct Hex as [e He]. cbn in He.
    destruct (books s !! params_id req) eqn:Hb; [| discriminate].
    rewrite Hdep. reflexivity.
  - rewrite Hdep. reflexivity.
  - rewrite Hdep. reflexivity.
  - reflexivity.
Qed.

(** X5.  Delete-submit touches one document at most: whatever the
    request and the store, every document other than the one the form
    names (field [authorid] for an Author, [id] otherwise) is
    unchanged afterwards, and no document is added. *)
Theorem delete_post_frame (k : Kind) (req : Req) (s : Store) :
  (∀ k' id', (k', id') ≠ (k, body_id k (body req)) →
     lookupK k' (delete_post k req s).1 id' = lookupK k' s id')
  ∧ (∀ k' id' e, lookupK k' (delete_post k req s).1 id' = Some e →
       lookupK k' s id' = Some e).
Proof.
  destruct (delete_post_cases k req s) as [-> | [_ ->]]; [done |].
  split.
  - intros k' id' Hne. by apply lookupK_delete_ne.
  - intros k' id' e.
    destruct (decide (id' = body_id k (body req))) as [-> | Hne];
      destruct k, k'; cbn;
      rewrite ?lookup_delete_eq, ?lookup_delete_ne by done; done.
Qed.

(** X6.  Deleting what is not there changes nothing: when the form
    names no document of the kind, the store after the delete-submit
    is the store before it. *)
Theorem delete_post_unknown_id (k : Kind) (req : Req) (s : Store) :
  lookupK k s (body_id k (body req)) = None →
  (delete_post k req s).1 = s.
Proof.
  intros Habs. destruct (delete_post_cases k req s) as [-> | [_ ->]]; [done |].
  destruct s as [bs au gs bi].
  destruct k; cbn in *; apply fmap_None in Habs; by rewrite delete_id.
Qed.

Lemma delete_post_unknown_id_witness :
  lookupK KGenre two_genres (body_id KGenre (body delete_unknown_genre)) = None
  ∧ (delete_post KGenre delete_unknown_genre two_genres).1 = two_genres.
Proof.
  assert (H : lookupK KGenre two_genres
                (body_id KGenre (body delete_unknown_genre)) = None)
    by (vm_compute; reflexivity).
  split; [exact H |].
  exact (delete_post_unknown_id KGenre delete_unknown_genre two_genres H).
Defined.

(** X7.  Delete, then read: after the delete-submit of a stored
    document without dependents, with the same identifier in the form
    and in the path, the detail page and the update form of that
    identifier answer Not-Found, and the delete confirmation redirects
    to the list. *)
Theorem delete_then_not_found (k : Kind) (req : Req) (s : Store) :
  body_id k (body req) = params_id req →
  is_Some (lookupK k s (params_id req)) →
  dependents k s (params_id req) = [] →
  detail k req (delete_post k req s).1
  = ((delete_post k req s).1, [Next (not_found k)])
  ∧ (update_get k req (delete_post k req s).1).2 = [Next (not_found k)]
  ∧ ∃ rest, (delete_get k req (delete_post k req s).1).2
            = Redirect (list_url k) :: rest.
Proof.
  intros Hid Hex Hdep.
  rewrite delete_post_unblocked_run by done. cbn [fst]. rewrite Hid.
  pose proof (lookupK_delete_eq k s (params_id req)) as Hgone.
  set (s' := match k with
             | KBook => _ | KAuthor => _ | KGenre => _ | KBookInstance => _
             end) in *.
  clearbody s'.
  split; [by apply detail_absent_run |].
  destruct k; cbn in Hgone; apply fmap_None in Hgone; run; rewrite Hgone;
    (split; [reflexivity | eexists; reflexivity]).
Qed.

Lemma delete_then_not_found_witness :
  body_id KGenre (body delete_poetry) = params_id delete_poetry
  ∧ is_Some (lookupK KGenre two_genres (params_id delete_poetry))
  ∧ dependents KGenre two_genres (params_id delete_poetry) = []
  ∧ detail KGenre delete_poetry (delete_post KGenre delete_poetry two_genres).1
    = ((delete_post KGenre delete_poetry two_genres).1, [Next (not_found KGenre)]).
Proof.
  assert (H1 : body_id KGenre (body delete_poetry) = params_id delete_poetry)
    by reflexivity.
  assert (H2 : is_Some (lookupK KGenre two_genres (params_id delete_poetry)))
    by (vm_compute; eauto).
  assert (H3 : dependents KGenre two_genres (params_id delete_poetry) = [])
    by (vm_compute; reflexivity).
  split; [exact H1 |]. split; [exact H2 |]. split; [exact H3 |].
  exact (proj1 (delete_then_not_found KGenre delete_poetry two_genres H1 H2 H3)).
Defined.

(** X8.  "Render in same way as for GET route": for a stored document
    with a dependent, the delete-submit answers exactly as the delete
    confirmation does, the same view with the same locals, and
    neither writes. *)
Theorem delete_post_blocked_as_get (k : Kind) (req : Req) (s : Store) :
  is_Some (lookupK k s (params_id req)) →
  dependents k s (params_id req) ≠ [] →
  delete_post k req s = delete_get k req s.
Proof.
  intros [e He] Hdep.
  destruct k; cbn in Hdep; try congruence;
    apply map_not_nil, positive_length in Hdep;
    cbn in He; apply fmap_Some in He as (o & Ho & ->);
    run; rewrite ?Ho, Hdep; reflexivity.
Qed.

Lemma delete_post_blocked_as_get_witness :
  is_Some (lookupK KBook library (params_id delete_emma))
  ∧ dependents KBook library (params_id delete_emma) ≠ []
  ∧ delete_post KBook delete_emma library = delete_get KBook delete_emma library.
Proof.
  assert (H1 : is_Some (lookupK KBook library (params_id delete_emma)))
    by (vm_compute; eauto).
  assert (H2 : dependents KBook library (params_id delete_emma) ≠ [])
    by (vm_compute; discriminate).
  split; [exact H1 |]. split; [exact H2 |].
  exact (delete_post_blocked_as_get KBook delete_emma library H1 H2).
Defined.

(** ** References stay valid under deletion *)

Lemma filter_nil_false {A} (p : A → bool) (l : list A) (x : A) :
  List.filter p l = [] → In x l → p x = false.
Proof.
  intros Hnil Hin. destruct (p x) eqn:Hp; [| done].
  assert (In x (List.filter p l)) as Hx by (apply filter_In; done).
  rewrite Hnil in Hx. destruct Hx.
Qed.

(** X9.  The dependent check of the delete-submit keeps the
    references valid: when the form carries the identifier of the
    path, and every Book refers to a stored Author and to stored
    Genres and every BookInstance to a stored Book before the request,
    the same holds after it. *)
Theorem delete_post_keeps_references (k : Kind) (req : Req) (s : Store) :
  body_id k (body req) = params_id req →
  refs_ok s →
  refs_ok (delete_post k req s).1.
Proof.
  intros Hid [Hbooks Hcopies].
  destruct (delete_post_cases k req s) as [-> | [Hdep ->]]; [done |].
  rewrite Hid. destruct k; cbn in Hdep; try apply map_nil in Hdep;
    unfold refs_ok; cbn.
  - (* a Book is removed: no copy refers to it *)
    split.
    + intros id b Hb. apply lookup_delete_Some in Hb as [_ Hb]. eauto.
    + intros id i b Hi Hbook.
      assert (b ≠ params_id req) as Hne.
      { intros ->.
        pose proof (filter_nil_false _ _ (mkDoc id i) Hdep) as Hf.
        rewrite (In_docs BookInstance s (mkDoc id i)) in Hf.
        specialize (Hf Hi). unfold of_book in Hf. cbn in Hf.
        by rewrite bool_decide_eq_false in Hf. }
      rewrite lookup_delete_ne by done. eauto.
  - (* an Author is removed: no Book is theirs *)
    split; [| done].
    intros id b Hb. destruct (Hbooks id b Hb) as [Ha Hg]. split; [| done].
    assert (bk_author b ≠ params_id req) as Hne.
    { intros Heq.
      pose proof (filter_nil_false _ _ (mkDoc id b) Hdep) as Hf.
      rewrite (In_docs Book s (mkDoc id b)) in Hf.
      specialize (Hf Hb). unfold has_author in Hf. cbn in Hf.
      apply String.eqb_neq in Hf. done. }
    by rewrite lookup_delete_ne.
  - (* a Genre is removed: no Book has it *)
    split; [| done].
    intros id b Hb. destruct (Hbooks id b Hb) as [Ha Hg]. split; [done |].
    intros g Hin.
    assert (g ≠ params_id req) as Hne.
    { intros ->.
      pose proof (filter_nil_false _ _ (mkDoc id b) Hdep) as Hf.
      rewrite (In_docs Book s (mkDoc id b)) in Hf.
      specialize (Hf Hb). unfold has_genre in Hf. cbn in Hf.
      by rewrite bool_decide_eq_false in Hf. }
    rewrite lookup_delete_ne by done. eauto.
  - (* a BookInstance is removed: nothing refers to it *)
    split; [done |].
    intros id i b Hi. apply lookup_delete_Some in Hi as [_ Hi]. eauto.
Qed.

Lemma refs_ok_library : refs_ok library.
Proof.
  split.
  - intros id b Hb. cbn in Hb. apply lookup_singleton_Some in Hb as [_ <-].
    split; [vm_compute; eauto |].
    intros g Hg. cbn in Hg. apply list_elem_of_singleton in Hg as ->.
    vm_compute. eauto.
  - intros id i b Hi Hb. cbn in Hi. apply lookup_singleton_Some in Hi as [_ <-].
    cbn in Hb. injection Hb as <-. vm_compute. eauto.
Qed.

Lemma delete_post_keeps_references_witness :
  body_id KBookInstance (body delete_copy) = params_id delete_copy
  ∧ refs_ok library
  ∧ refs_ok (delete_post KBookInstance delete_copy library).1
  ∧ lookupK KBookInstance (delete_post KBookInstance delete_copy library).1 id4 = None.
Proof.
  assert (H1 : body_id KBookInstance (body delete_copy) = params_id delete_copy)
    by reflexivity.
  split; [exact H1 |]. split; [exact refs_ok_library |].
  split; [| vm_compute; reflexivity].
  exact (delete_post_keeps_references KBookInstance delete_copy library H1
           refs_ok_library).
Defined.

(** ** What a create-submit can change *)

(** A create-submit either writes nothing or writes the candidate
    under the new identifier, and then validation and the schema were
    passed, the identifier was unused, and no Genre had the name. *)
Lemma create_post_cases (L : Library) (k : Kind) (env : Env) (req : Req) (s : Store) :
  (create_post L k env req s).1 = s
  ∨ (create_post L k env req s).1
    = write (fresh_id env) (candidate L k env (body req)) s
    ∧ validation_errors L k (body req) = []
    ∧ schema_ok (candidate L k env (body req)) = true
    ∧ lookupK k s (fresh_id env) = None
    ∧ (k = KGenre → ¬ genre_collision L s (body req)).
Proof.
  destruct k; cbn [validation_errors schema_ok candidate lookupK]; run.
  - destruct (snd _) as [| e errors] eqn:Herr; [| by left].
    unfold save. cbn [doc_id doc_data new_Book].
    destruct (validate Book _) eqn:Hv; cbn [negb]; [| by left].
    destruct (coll Book s !! fresh_id env) eqn:Hf; [by left |].
    cbn [coll Book] in Hf. right. rewrite Hf. done.
  - destruct (snd _) as [| e errors] eqn:Herr; [| by left].
    unfold save. cbn [doc_id doc_data new_Author].
    destruct (validate Author _) eqn:Hv; cbn [negb]; [| by left].
    destruct (coll Author s !! fresh_id env) eqn:Hf; [by left |].
    cbn [coll Author] in Hf. right. rewrite Hf. done.
  - destruct (snd _) as [| e errors] eqn:Herr; [| by left].
    destruct (List.find _ (docs Genre s)) as [g |] eqn:Hfind; [by left |].
    unfold save. cbn [doc_id doc_data].
    destruct (validate Genre _) eqn:Hv; cbn [negb]; [| by left].
    destruct (coll Genre s !! fresh_id env) eqn:Hf; [by left |].
    cbn [coll Genre] in Hf. right. rewrite Hf.
    repeat split; try done. intros _. by apply no_collision_by_search.
  - destruct (snd _) as [| e errors] eqn:Herr.
    + unfold save. cbn [doc_id doc_data instance_of_fields new_BookInstance].
      destruct (validate BookInstance _) eqn:Hv; cbn [negb]; [| by left].
      destruct (coll BookInstance s !! fresh_id env) eqn:Hf; [by left |].
      cbn [coll BookInstance] in Hf. right. rewrite Hf. done.
    + left. unfold instance_of_fields, new_BookInstance. cbn [doc_data bi_book].
      destruct (castObjectId L _); reflexivity.
Qed.

(** X10.  A create-submit adds one document at most and touches no
    other: every stored document is still there, unchanged, after the
    request; and a document that is there afterwards either was there
    before or is the candidate, under the new identifier, of a
    submission that passed validation and the validators of the
    schema. *)
Theorem create_post_frame
  (L : Library) (k : Kind) (env : Env) (req : Req) (s : Store) :
  (∀ k' id' e, lookupK k' s id' = Some e →
     lookupK k' (create_post L k env req s).1 id' = Some e)
  ∧ (∀ k' id' e, lookupK k' (create_post L k env req s).1 id' = Some e →
       lookupK k' s id' = Some e
       ∨ (k' = k ∧ id' = fresh_id env ∧ e = candidate L k env (body req)
          ∧ schema_ok e = true ∧ validation_errors L k (body req) = [])).
Proof.
  destruct (create_post_cases L k env req s)
    as [-> | (-> & Hval & Hschema & Hfresh & _)]; [auto |].
  pose proof (kind_of_candidate L k env (body req)) as Hk.
  assert (Hdec : ∀ k' id', (k', id') = (k, fresh_id env)
                           ∨ (k', id') ≠ (kind_of (candidate L k env (body req)),
                                          fresh_id env)).
  { intros k' id'. rewrite Hk.
    destruct (decide (id' = fresh_id env)) as [-> | ?];
      [destruct k, k' |]; (by left) || (right; congruence). }
  split; intros k' id' e He.
  - destruct (Hdec k' id') as [[= -> ->] | Hne]; [congruence |].
    by rewrite lookupK_write_ne.
  - destruct (Hdec k' id') as [[= -> ->] | Hne].
    + right. rewrite <- Hk in He at 1. rewrite lookupK_write_eq in He.
      injection He as <-. done.
    + left. by rewrite lookupK_write_ne in He.
Qed.

(** X11.  A create-submit whose form passes validation but whose
    candidate fails a validator of the schema (and, for a Genre, whose
    name is not taken) stores nothing: [save()] rejects, and the
    validation error of the model goes to [next]. *)
Theorem create_post_schema_rejects
  (L : Library) (k : Kind) (env : Env) (req : Req) (s : Store) :
  validation_errors L k (body req) = [] →
  schema_ok (candidate L k env (body req)) = false →
  (k = KGenre → ¬ genre_collision L s (body req)) →
  create_post L k env req s = (s, [Next (ValidationError (model_name k))]).
Proof.
  intros Hval Hschema Hcol.
  destruct k; cbn [validation_errors] in Hval; cbn [schema_ok candidate] in Hschema;
    run; rewrite Hval.
  - rewrite save_invalid by done. reflexivity.
  - rewrite save_invalid by done. reflexivity.
  - rewrite (findOne_genre_no_collision L s (body req)) by auto.
    rewrite save_invalid by done. reflexivity.
  - rewrite save_invalid by done. reflexivity.
Qed.

Lemma create_post_schema_rejects_witness :
  validation_errors ascii_lib KBookInstance (body create_lost_copy) = []
  ∧ schema_ok (candidate ascii_lib KBookInstance env0 (body create_lost_copy)) = false
  ∧ create_post ascii_lib KBookInstance env0 create_lost_copy library
    = (library, [Next (ValidationError (model_name KBookInstance))]).
Proof.
  assert (H1 : validation_errors ascii_lib KBookInstance (body create_lost_copy) = [])
    by (vm_compute; reflexivity).
  assert (H2 : schema_ok (candidate ascii_lib KBookInstance env0
                            (body create_lost_copy)) = false)
    by (vm_compute; reflexivity).
  assert (H3 : KBookInstance = KGenre
               → ¬ genre_collision ascii_lib library (body create_lost_copy))
    by discriminate.
  split; [exact H1 |]. split; [exact H2 |].
  exact (create_post_schema_rejects ascii_lib KBookInstance env0 create_lost_copy
           library H1 H2 H3).
Defined.

(** ** Genre names stay unique under creation *)

Lemma unique_names_by_search (L : Library) (s : Store) :
  unique_names_search L s = true → unique_names L s.
Proof.
  unfold unique_names_search. intros Hall i j gi gj Hi Hj Hne.
  rewrite forallb_forall in Hall.
  specialize (Hall (mkDoc i gi)).
  rewrite (In_docs Genre s (mkDoc i gi)) in Hall. specialize (Hall Hi).
  rewrite forallb_forall in Hall. specialize (Hall (mkDoc j gj)).
  rewrite (In_docs Genre s (mkDoc j gj)) in Hall. specialize (Hall Hj).
  cbn in Hall. apply orb_true_iff in Hall as [Heq | Hneq].
  - apply String.eqb_eq in Heq. done.
  - by apply negb_true_iff in Hneq.
Qed.

(** X12.  The duplicate check of the Genre create-submit keeps the
    names unique: with a symmetric collation, if no two stored Genres
    have the same name up to case before the request, none do after
    it, whatever is submitted. *)
Theorem genre_create_post_keeps_names_unique
  (L : Library) (env : Env) (req : Req) (s : Store) :
  (∀ a b, collation_eq L a b = collation_eq L b a) →
  unique_names L s →
  unique_names L (genre_create_post L env req s).1.
Proof.
  intros Hsym Huniq.
  destruct (create_post_cases L KGenre env req s)
    as [Hs | (Hs & _ & _ & _ & Hcol)]; cbn [create_post] in Hs; rewrite Hs;
    [done |].
  specialize (Hcol eq_refl). cbn [candidate write set_coll Genre].
  assert (Hnew : ∀ j gj, genres s !! j = Some gj →
            collation_eq L (g_name gj) (genre_chains L (body req)).1 = false).
  { intros j gj Hj.
    destruct (collation_eq L (g_name gj) _) eqn:Heq; [| done].
    destruct Hcol. by exists j, gj. }
  intros i j gi gj Hi Hj Hne. cbn [genres] in Hi, Hj.
  apply lookup_insert_Some in Hi as [[<- <-] | [Hi' Hi]];
    apply lookup_insert_Some in Hj as [[<- <-] | [Hj' Hj]].
  - done.
  - cbn [g_name]. rewrite Hsym. eauto.
  - cbn [g_name]. eauto.
  - eauto.
Qed.

Lemma ascii_collation_eq_sym (a b : string) :
  ascii_collation_eq a b = ascii_collation_eq b a.
Proof. unfold ascii_collation_eq. apply String.eqb_sym. Qed.

Lemma genre_create_post_keeps_names_unique_witness :
  (∀ a b, collation_eq ascii_lib a b = collation_eq ascii_lib b a)
  ∧ unique_names ascii_lib two_genres
  ∧ unique_names ascii_lib
      (genre_create_post ascii_lib env0 create_fantasy two_genres).1
  ∧ count KGenre (genre_create_post ascii_lib env0 create_fantasy two_genres).1 = 3.
Proof.
  assert (H1 : ∀ a b, collation_eq ascii_lib a b = collation_eq ascii_lib b a)
    by exact ascii_collation_eq_sym.
  assert (H2 : unique_names ascii_lib two_genres)
    by (apply unique_names_by_search; vm_compute; reflexivity).
  split; [exact H1 |]. split; [exact H2 |]. split; [| vm_compute; reflexivity].
  exact (genre_create_post_keeps_names_unique ascii_lib env0 create_fantasy
           two_genres H1 H2).
Defined.

(** ** What an update-submit can change *)

Lemma update_post_cases (L : Library) (k : Kind) (env : Env) (req : Req) (s : Store) :
  (update_post L k env req s).1 = s
  ∨ ∃ old, lookupK k s (params_id req) = Some old
           ∧ validation_errors L k (body req) = []
           ∧ (update_post L k env req s).1
             = write (params_id req) (updated old (candidate L k env (body req))) s.
Proof.
  destruct (validation_errors L k (body req)) as [| e errors] eqn:Hval.
  - destruct (lookupK k s (params_id req)) as [old |] eqn:Hold.
    + right. exists old. by rewrite (update_post_valid L k env req s old).
    + left. destruct k; cbn [validation_errors] in Hval; cbn in Hold;
        apply fmap_None in Hold; run; rewrite Hval;
        rewrite findByIdAndUpdate_None by done; reflexivity.
  - left. destruct k; cbn [validation_errors] in Hval; run; rewrite Hval;
      try reflexivity.
    unfold instance_of_fields, new_BookInstance. cbn [doc_data bi_book].
    destruct (castObjectId L _); reflexivity.
Qed.

(** X13.  An update-submit never inserts and never removes: whatever
    the request and the store, each kind has as many documents after
    it as before, the same identifiers are in use, and every document
    other than the one of the path is unchanged. *)
Theorem update_post_frame
  (L : Library) (k : Kind) (env : Env) (req : Req) (s : Store) :
  (∀ k', count k' (update_post L k env req s).1 = count k' s)
  ∧ (∀ k' id', is_Some (lookupK k' (update_post L k env req s).1 id')
               ↔ is_Some (lookupK k' s id'))
  ∧ (∀ k' id', (k', id') ≠ (k, params_id req) →
       lookupK k' (update_post L k env req s).1 id' = lookupK k' s id').
Proof.
  destruct (update_post_cases L k env req s) as [-> | (old & Hold & Hval & ->)];
    [done |].
  pose proof (kind_of_candidate L k env (body req)) as Hc.
  pose proof (kind_of_lookupK k s _ old Hold) as Ho.
  set (e := updated old (candidate L k env (body req))).
  assert (Hk : kind_of e = k) by (unfold e; rewrite kind_of_updated; congruence).
  assert (Hother : ∀ k' id', (k', id') ≠ (k, params_id req) →
            lookupK k' (write (params_id req) e s) id' = lookupK k' s id').
  { intros k' id' Hne. apply lookupK_write_ne. by rewrite Hk. }
  assert (Hdec : ∀ k' id', (k', id') = (k, params_id req)
                           ∨ (k', id') ≠ (k, params_id req)).
  { intros k' id'. destruct (decide (id' = params_id req)) as [-> | ?];
      [destruct k, k' |]; (by left) || (right; congruence). }
  split; [| split; [| exact Hother]].
  - intros k'. destruct (Hdec k' (params_id req)) as [[= ->] | Hne].
    + rewrite <- Hk at 1 2. apply count_write_old. rewrite Hk, Hold. eauto.
    + clear -Hk Hne. destruct e, k, k'; cbn in *; congruence.
  - intros k' id'. destruct (Hdec k' id') as [[= -> ->] | Hne].
    + rewrite <- Hk at 1. rewrite lookupK_write_eq, Hold. split; eauto.
    + by rewrite Hother.
Qed.

(** ** Submissions that fail validation *)

(** X14.  A submission with a field error is never persisted and
    never answered with a redirect: after a create-submit or an
    update-submit whose validation reports an error the store is
    unchanged, and the handler has made no call of [res.redirect]. *)
Theorem invalid_submission_never_writes
  (L : Library) (k : Kind) (env : Env) (req : Req) (s : Store) :
  validation_errors L k (body req) ≠ [] →
  (create_post L k env req s).1 = s
  ∧ (update_post L k env req s).1 = s
  ∧ (∀ url, ¬ In (Redirect url) (create_post L k env req s).2)
  ∧ (∀ url, ¬ In (Redirect url) (update_post L k env req s).2).
Proof.
  intros Hval.
  destruct k; cbn [validation_errors] in Hval; run;
    (destruct (snd _) as [| e errors] eqn:Herr; [congruence |]);
    try (unfold instance_of_fields, new_BookInstance; cbn [doc_data bi_book];
         destruct (castObjectId L _));
    cbn [fst snd]; repeat split; try reflexivity;
    intros url [[=] | []].
Qed.

Lemma invalid_submission_never_writes_witness :
  validation_errors ascii_lib KBookInstance (body create_copy_without_book) ≠ []
  ∧ (create_post ascii_lib KBookInstance env0 create_copy_without_book library).1
    = library
  ∧ (update_post ascii_lib KBookInstance env0 create_copy_without_book library).1
    = library.
Proof.
  assert (H : validation_errors ascii_lib KBookInstance
                (body create_copy_without_book) ≠ [])
    by (vm_compute; discriminate).
  split; [exact H |].
  destruct (invalid_submission_never_writes ascii_lib KBookInstance env0
              create_copy_without_book library H) as (Hc & Hu & _).
  split; [exact Hc | exact Hu].
Defined.

(** X15.  When validation fails, the submit handlers of Book, Author
    and Genre, and those of BookInstance when the submitted book casts
    to an identifier, render the form of the kind again, with the list
    of all field errors and with the candidate built from the
    sanitized values (under the new identifier on create, under the
    identifier of the path on update). *)
Theorem invalid_submission_rerenders_form
  (L : Library) (k : Kind) (env : Env) (req : Req) (s : Store) :
  validation_errors L k (body req) ≠ [] →
  (k = KBookInstance →
     is_Some (castObjectId L (if_book (bookinstance_chains L (body req)).1))) →
  (∃ locals title,
     create_post L k env req s = (s, [RenderFile (form_view k) locals title])
     ∧ local "errors" locals = Some (VErrors (validation_errors L k (body req)))
     ∧ local (candidate_key k) locals
       = Some (candidate_local k (fresh_id env) (candidate L k env (body req))))
  ∧ (∃ locals title,
       update_post L k env req s = (s, [RenderFile (form_view k) locals title])
       ∧ local "errors" locals = Some (VErrors (validation_errors L k (body req)))
       ∧ local (candidate_key k) locals
         = Some (candidate_local k (params_id req) (candidate L k env (body req)))).
Proof.
  intros Hval Hcast. split.
  - by apply create_post_invalid.
  - by apply update_post_invalid.
Qed.

Lemma invalid_submission_rerenders_form_witness :
  validation_errors ascii_lib KGenre (body submit_short_genre) ≠ []
  ∧ ∃ locals title,
      create_post ascii_lib KGenre env0 submit_short_genre two_genres
      = (two_genres, [RenderFile (form_view KGenre) locals title])
      ∧ local "errors" locals
        = Some (VErrors (validation_errors ascii_lib KGenre
                           (body submit_short_genre))).
Proof.
  assert (H1 : validation_errors ascii_lib KGenre (body submit_short_genre) ≠ [])
    by (vm_compute; discriminate).
  assert (H2 : KGenre = KBookInstance →
               is_Some (castObjectId ascii_lib
                          (if_book (bookinstance_chains ascii_lib
                                      (body submit_short_genre)).1)))
    by discriminate.
  split; [exact H1 |].
  destruct (proj1 (invalid_submission_rerenders_form ascii_lib KGenre env0
                     submit_short_genre two_genres H1 H2))
    as (locals & title & Hrun & Herr & _).
  exists locals, title. split; [exact Hrun | exact Herr].
Defined.

(** ** The sorted lists *)

Lemma string_leb_trans (a b c : string) :
  String.leb a b = true → String.leb b c = true → String.leb a c = true.
Proof.
  unfold String.leb. revert b c.
  induction a as [| x a IH]; intros [| y b] [| z c]; cbn; try done.
  unfold Ascii.compare.
  destruct (N.compare_spec (N_of_ascii x) (N_of_ascii y)) as [Hxy | Hxy | Hxy],
           (N.compare_spec (N_of_ascii y) (N_of_ascii z)) as [Hyz | Hyz | Hyz],
           (N.compare_spec (N_of_ascii x) (N_of_ascii z)) as [Hxz | Hxz | Hxz];
    try done; try lia.
  apply IH.
Qed.

#[local] Instance key_le_total {A} (key : A → string) : Total (key_le key).
Proof. intros a b. apply String.leb_total. Qed.

#[local] Instance key_le_trans {A} (key : A → string) : Transitive (key_le key).
Proof. intros a b c. apply string_leb_trans. Qed.

Lemma NoDup_docs {A} (Mo : Model A) (s : Store) : NoDup (docs Mo s).
Proof.
  unfold docs. apply (NoDup_fmap_2_strong _).
  - intros [i a] [j b] _ _ [= -> ->]. reflexivity.
  - apply NoDup_map_to_list.
Qed.

(** What a sorted query resolves to: the documents of the collection,
    each once, in ascending order of the key. *)
Lemma find_sorted_spec {A} (Mo : Model A) (key : A → string) (s : Store) :
  ∃ l, find_sorted Mo key s = (s, [], Ret l)
       ∧ l ≡ₚ docs Mo s
       ∧ NoDup l
       ∧ StronglySorted (key_le key) l
       ∧ (∀ d, In d l ↔ coll Mo s !! doc_id d = Some (doc_data d)).
Proof.
  eexists. split; [reflexivity |].
  pose proof (merge_sort_Permutation (key_le key) (docs Mo s)) as Hperm.
  split; [done |]. split; [by rewrite Hperm; apply NoDup_docs |].
  split; [apply (StronglySorted_merge_sort _) |].
  intros d. rewrite <- In_docs, <- !list_elem_of_In. by rewrite Hperm.
Qed.

(** X16.  The list of genres shows every stored Genre exactly once,
    in ascending order of the name (compared byte by byte, so that
    upper case comes before lower case), and does not write. *)
Theorem genre_list_sorted_by_name (s : Store) :
  ∃ gs,
    genre_list s
    = (s, [RenderFile "views/genre-list.ejs"
             [("title", VText "Genre List"); ("list_genres", VGenres (unmarked gs))]
             "Genres"])
    ∧ NoDup gs
    ∧ (∀ g, In g gs ↔ genres s !! doc_id g = Some (doc_data g))
    ∧ length gs = count KGenre s
    ∧ StronglySorted
        (λ a b, String.leb (g_name (doc_data a)) (g_name (doc_data b)) = true) gs.
Proof.
  destruct (find_sorted_spec Genre g_name s) as (l & Hrun & Hperm & Hnd & Hs & Hin).
  exists l. unfold genre_list, asyncHandler, mbind, M_bind, bind.
  rewrite Hrun. split; [reflexivity |]. split; [done |]. split; [done |].
  split; [| done]. by rewrite Hperm, length_docs.
Qed.

(** X17.  The list of authors shows every stored Author exactly
    once, in ascending order of the family name (compared byte by
    byte), and does not write. *)
Theorem author_list_sorted_by_family_name (s : Store) :
  ∃ l,
    author_list s
    = (s, [RenderFile "views/author-list.ejs"
             [("title", VText "Book Instance List"); ("author_list", VAuthors l)]
             "Authors"])
    ∧ NoDup l
    ∧ (∀ a, In a l ↔ authors s !! doc_id a = Some (doc_data a))
    ∧ length l = count KAuthor s
    ∧ StronglySorted
        (λ a b, String.leb (a_family_name (doc_data a)) (a_family_name (doc_data b))
                = true) l.
Proof.
  destruct (find_sorted_spec Author a_family_name s)
    as (l & Hrun & Hperm & Hnd & Hs & Hin).
  exists l. unfold author_list, asyncHandler, mbind, M_bind, bind.
  rewrite Hrun. split; [reflexivity |]. split; [done |]. split; [done |].
  split; [| done]. by rewrite Hperm, length_docs.
Qed.

Example genre_list_upper_case_first :
  genre_list
    {| books := ∅; authors := ∅;
       genres := {[ id1 := {| g_name := "poetry" |}; id2 := {| g_name := "Drama" |};
                    id3 := {| g_name := "Zen" |} ]};
       bookinstances := ∅ |}
  = ({| books := ∅; authors := ∅;
        genres := {[ id1 := {| g_name := "poetry" |}; id2 := {| g_name := "Drama" |};
                     id3 := {| g_name := "Zen" |} ]};
        bookinstances := ∅ |},
     [RenderFile "views/genre-list.ejs"
        [("title", VText "Genre List");
         ("list_genres",
          VGenres [(mkDoc id2 {| g_name := "Drama" |}, false);
                   (mkDoc id3 {| g_name := "Zen" |}, false);
                   (mkDoc id1 {| g_name := "poetry" |}, false)])]
        "Genres"]).
Proof. vm_compute. reflexivity. Qed.

(** ** The home page counts *)

Lemma filter_length_le {A} (p : A → bool) (l : list A) :
  length (List.filter p l) ≤ length l.
Proof. induction l as [| x l IH]; cbn; [lia |]. destruct (p x); cbn; lia. Qed.

(** X18.  The home page receives the number of Books, the number of
    BookInstances, and the number of BookInstances whose status is
    "Available", which never exceeds the number of BookInstances. *)
Theorem index_counts (s : Store) :
  ∃ locals title available,
    index s = (s, [RenderFile "views/index.ejs" locals title])
    ∧ local "book_count" locals = Some (VCount (count KBook s))
    ∧ local "book_instance_count" locals = Some (VCount (count KBookInstance s))
    ∧ local "book_instance_available_count" locals = Some (VCount available)
    ∧ available = length (List.filter is_available (docs BookInstance s))
    ∧ available ≤ count KBookInstance s.
Proof.
  run. rewrite !filter_all, !length_docs. cbn [coll Author Book BookInstance].
  eexists _, _, _. split; [reflexivity |].
  split; [reflexivity |]. split; [reflexivity |]. split; [reflexivity |].
  split; [reflexivity |].
  etransitivity; [apply filter_length_le |]. by rewrite length_docs.
Qed.

(** ** The marks of the book update form *)

Lemma elem_of_populated_genres (gs : gmap string GenreData) (l : list string) (x : string) :
  x ∈ map doc_id (omap (λ g, mkDoc g <$> gs !! g) l) ↔ x ∈ l ∧ is_Some (gs !! x).
Proof.
  induction l as [| g l IH]; cbn.
  - split; [by intros ?%elem_of_nil | by intros [?%elem_of_nil _]].
  - destruct (gs !! g) as [d |] eqn:Hg; cbn.
    + rewrite !elem_of_cons, IH. split.
      * intros [-> | [? ?]]; [split; [by left | by rewrite Hg] | split; [by right | done]].
      * intros [[-> | ?] ?]; [by left | by right].
    + rewrite elem_of_cons, IH. split.
      * intros [? ?]. split; [by right | done].
      * intros [[-> | ?] Hs]; [rewrite Hg in Hs; by destruct Hs | done].
Qed.

(** X19.  In the update form of a stored Book the stored Genres are
    all offered, and a Genre carries the [checked] mark exactly when
    the Book refers to it. *)
Theorem book_update_get_marks_genres (req : Req) (s : Store) (b : BookData) :
  books s !! params_id req = Some b →
  ∃ locals title marks,
    book_update_get req s = (s, [RenderFile "views/book-form.ejs" locals title])
    ∧ local "genres" locals = Some (VGenres marks)
    ∧ map fst marks = docs Genre s
    ∧ (∀ g m, In (g, m) marks → (m = true ↔ doc_id g ∈ bk_genre b)).
Proof.
  intros Hb. run. rewrite Hb. run. rewrite !filter_all.
  eexists _, _, _. split; [reflexivity |]. split; [reflexivity |]. split.
  - rewrite map_map. cbn. apply map_id.
  - intros g m Hin. apply in_map_iff in Hin as (g' & [= <- <-] & Hin).
    apply In_docs in Hin. cbn [coll Genre] in Hin. cbn.
    pose proof (elem_of_populated_genres (genres s) (bk_genre b) (doc_id g'))
      as Hpop.
    rewrite bool_decide_eq_true. split.
    + intros Hm. by apply Hpop in Hm as [? _].
    + intros Hm. apply Hpop. split; [done | by rewrite Hin].
Qed.

Lemma book_update_get_marks_genres_witness :
  books library !! params_id show_emma = Some emma
  ∧ ∃ locals title marks,
      book_update_get show_emma library
      = (library, [RenderFile "views/book-form.ejs" locals title])
      ∧ local "genres" locals = Some (VGenres marks)
      ∧ map fst marks = docs Genre library
      ∧ (∀ g m, In (g, m) marks → (m = true ↔ doc_id g ∈ bk_genre emma)).
Proof.
  assert (H : books library !! params_id show_emma = Some emma)
    by (vm_compute; reflexivity).
  split; [exact H |].
  exact (book_update_get_marks_genres show_emma library emma H).
Defined.

(** ** The update form of a copy *)

(** X20.  The update form of a stored BookInstance needs its Book:
    when the Book it refers to is stored, the form is rendered with
    that Book selected; when the reference is unset or names no stored
    Book, reading [bookInstance.book._id] throws and a TypeError goes
    to [next].  The store is unchanged in both cases. *)
Theorem bookinstance_update_get_needs_book (req : Req) (s : Store) (i : BookInstanceData) :
  bookinstances s !! params_id req = Some i →
  (∀ b, bi_book i = Some b → is_Some (books s !! b) →
     ∃ locals title,
       bookinstance_update_get req s
       = (s, [RenderFile "views/bookinstance-form.ejs" locals title])
       ∧ local "selected_book" locals = Some (VId b))
  ∧ ((bi_book i = None ∨ ∃ b, bi_book i = Some b ∧ books s !! b = None) →
       ∃ message, bookinstance_update_get req s = (s, [Next (TypeError message)])).
Proof.
  intros Hi. split.
  - intros b Hb [bd Hbd]. run. rewrite Hi. run. cbn. rewrite Hb. cbn.
    rewrite Hbd. eexists _, _. split; reflexivity.
  - intros [Hb | (b & Hb & Hbd)]; run; rewrite Hi; run; cbn; rewrite Hb; cbn;
      rewrite ?Hbd; eexists; reflexivity.
Qed.

Lemma bookinstance_update_get_needs_book_witness :
  bookinstances orphan_copy !! params_id show_copy = Some copy_of_emma
  ∧ (∃ b, bi_book copy_of_emma = Some b ∧ books orphan_copy !! b = None)
  ∧ ∃ message,
      bookinstance_update_get show_copy orphan_copy
      = (orphan_copy, [Next (TypeError message)]).
Proof.
  assert (H1 : bookinstances orphan_copy !! params_id show_copy = Some copy_of_emma)
    by (vm_compute; reflexivity).
  assert (H2 : ∃ b, bi_book copy_of_emma = Some b ∧ books orphan_copy !! b = None)
    by (exists id3; split; vm_compute; reflexivity).
  split; [exact H1 |]. split; [exact H2 |].
  exact (proj2 (bookinstance_update_get_needs_book show_copy orphan_copy
                  copy_of_emma H1) (or_intror H2)).
Defined.

(** ** The empty forms *)

(** The empty Book form offers every stored Author and every stored
    Genre exactly once, no Genre marked; the empty BookInstance form
    offers one entry, identifier and title, for every stored Book;
    both come without errors and neither writes. *)
Lemma create_forms_offer_all (s : Store) :
  (∃ locals title,
     book_create_get s = (s, [RenderFile "views/book-form.ejs" locals title])
     ∧ local "authors" locals = Some (VAuthors (docs Author s))
     ∧ local "genres" locals = Some (VGenres (unmarked (docs Genre s)))
     ∧ local "errors" locals = Some VNull)
  ∧ (∃ locals title,
       bookinstance_create_get s
       = (s, [RenderFile "views/bookinstance-form.ejs" locals title])
       ∧ local "book_list" locals
         = Some (VBookList (map project_title (docs Book s)))
       ∧ local "errors" locals = Some VNull)
  ∧ NoDup (docs Author s) ∧ NoDup (docs Genre s) ∧ NoDup (docs Book s)
  ∧ (∀ a, In a (docs Author s) ↔ authors s !! doc_id a = Some (doc_data a))
  ∧ (∀ g, In g (docs Genre s) ↔ genres s !! doc_id g = Some (doc_data g))
  ∧ (∀ b, In b (docs Book s) ↔ books s !! doc_id b = Some (doc_data b)).
Proof.
  split; [| split].
  - run_all. rewrite !filter_all. eexists _, _. repeat split; reflexivity.
  - run_all. rewrite !filter_all. eexists _, _. repeat split; reflexivity.
  - split; [apply NoDup_docs |]. split; [apply NoDup_docs |].
    split; [apply NoDup_docs |].
    split; [intros a; apply (In_docs Author) |].
    split; [intros g; apply (In_docs Genre) | intros b; apply (In_docs Book)].
Qed.

(** ** Locations *)

Lemma append_cancel (p a b : string) : p ++ a = p ++ b → a = b.
Proof. induction p as [| c p IH]; cbn; [done |]. intros [= H]. auto. Qed.

(** X21.  The location of a document identifies it: two Genres with
    the same [url] have the same identifier, two BookInstances
    likewise, and the location of a Genre is never that of a
    BookInstance. *)
Theorem url_identifies_document :
  (∀ g1 g2 : Doc GenreData, genre_url g1 = genre_url g2 → doc_id g1 = doc_id g2)
  ∧ (∀ i1 i2 : Doc BookInstanceData,
       bookinstance_url i1 = bookinstance_url i2 → doc_id i1 = doc_id i2)
  ∧ (∀ (g : Doc GenreData) (i : Doc BookInstanceData),
       genre_url g ≠ bookinstance_url i).
Proof.
  split; [| split].
  - intros g1 g2. apply append_cancel.
  - intros i1 i2. apply append_cancel.
  - intros g i. unfold genre_url, bookinstance_url. cbn. discriminate.
Qed.

(** ** The error handler of the application *)

(** X22.  A detail page or an update form for an identifier without a
    document ends in the error view with status 404 and the message of
    the kind; an error thrown without a status (a TypeError, a
    rejected [save()]) ends in the error view with status 500; outside
    development the error object is not handed to the view. *)
Theorem not_found_is_404_page
  (development : bool) (library_message : string)
  (k : Kind) (req : Req) (s : Store) :
  lookupK k s (params_id req) = None →
  ∃ e,
    detail k req s = (s, [Next e])
    ∧ update_get k req s = (s, [Next e])
    ∧ ep_status (error_handler development (js_error library_message e)) = 404
    ∧ ep_view (error_handler development (js_error library_message e)) = "error"
    ∧ ep_message (error_handler development (js_error library_message e))
      = match k with
        | KBook => "Book not found"
        | KAuthor => "Author not found"
        | KGenre => "Genre not found"
        | KBookInstance => "Book copy not found"
        end
    ∧ (∀ e', (∀ status message, e' ≠ HttpError status message) →
         ep_status (error_handler development (js_error library_message e')) = 500)
    ∧ (development = false →
         ep_error (error_handler development (js_error library_message e)) = None).
Proof.
  intros Habs. exists (not_found k).
  split; [by apply detail_absent_run |].
  split.
  { destruct k; cbn in Habs; apply fmap_None in Habs; run; by rewrite Habs. }
  split; [reflexivity |]. split; [reflexivity |]. split; [by destruct k |].
  split.
  - intros [st m | | |] Hne; try reflexivity. by destruct (Hne st m).
  - intros ->. reflexivity.
Qed.

Lemma not_found_is_404_page_witness :
  lookupK KGenre dangling (params_id delete_missing_genre) = None
  ∧ ∃ e,
      detail KGenre delete_missing_genre dangling = (dangling, [Next e])
      ∧ ep_status (error_handler false (js_error "" e)) = 404
      ∧ ep_message (error_handler false (js_error "" e)) = "Genre not found".
Proof.
  assert (H : lookupK KGenre dangling (params_id delete_missing_genre) = None)
    by (vm_compute; reflexivity).
  split; [exact H |].
  destruct (not_found_is_404_page false "" KGenre delete_missing_genre dangling H)
    as (e & Hd & _ & Hst & _ & Hm & _).
  exists e. split; [exact Hd |]. split; [exact Hst | exact Hm].
Defined.

(** ** Absence decides *)

(** X23.  Whether the identifier has a document decides the answer of
    the other two GET routes as well: the update form answers
    Not-Found exactly when there is none, and the delete confirmation
    calls [res.redirect] with the list of the kind exactly when there
    is none. *)
Theorem absence_decides_update_get_and_delete_get (k : Kind) (req : Req) (s : Store) :
  (lookupK k s (params_id req) = None
   ↔ update_get k req s = (s, [Next (not_found k)]))
  ∧ (lookupK k s (params_id req) = None
     ↔ In (Redirect (list_url k)) (delete_get k req s).2).
Proof.
  destruct (lookupK k s (params_id req)) as [e |] eqn:He.
  - assert (update_get k req s ≠ (s, [Next (not_found k)])
            ∧ ¬ In (Redirect (list_url k)) (delete_get k req s).2) as [Hu Hd].
    { destruct k; cbn in He; apply fmap_Some in He as (o & Ho & ->);
        run; rewrite Ho; run; (split; [| intros [[=] | []]]); try discriminate.
      cbn. destruct (bi_book o) as [b |]; cbn; [destruct (books s !! b) |];
        discriminate. }
    split; split; done.
  - assert (update_get k req s = (s, [Next (not_found k)])
            ∧ In (Redirect (list_url k)) (delete_get k req s).2) as [Hu Hd].
    { destruct k; cbn in He; apply fmap_None in He; run; rewrite He;
        (split; [reflexivity | by left]). }
    split; split; done.
Qed.

(** ** Submitting a Genre twice *)

(** X24.  Submitting the same Genre twice creates it once: after a
    Genre create-submit that persisted its candidate, a second
    create-submit with the same form (and a collation under which a
    name equals itself) writes nothing and redirects to the detail
    location of a stored Genre with that name. *)
Theorem genre_create_post_twice
  (L : Library) (env env' : Env) (req : Req) (s : Store) :
  (∀ a, collation_eq L a a = true) →
  validation_errors L KGenre (body req) = [] →
  schema_ok (candidate L KGenre env (body req)) = true →
  lookupK KGenre s (fresh_id env) = None →
  ¬ genre_collision L s (body req) →
  ∃ id g,
    genres (genre_create_post L env req s).1 !! id = Some g
    ∧ collation_eq L (g_name g) (genre_chains L (body req)).1 = true
    ∧ genre_create_post L env' req (genre_create_post L env req s).1
      = ((genre_create_post L env req s).1, [Redirect (detail_url KGenre id)]).
Proof.
  intros Hrefl Hval Hschema Hfresh Hcol.
  pose proof (create_post_valid L KGenre env req s Hval Hschema Hfresh (λ _, Hcol))
    as Hrun.
  cbn [create_post] in Hrun. rewrite Hrun. cbn [fst candidate write].
  set (s' := set_coll Genre _ s).
  assert (Hcol' : genre_collision L s' (body req)).
  { exists (fresh_id env), {| g_name := (genre_chains L (body req)).1 |}.
    split; [apply lookup_insert_eq | apply Hrefl]. }
  destruct (findOne_genre_collision L s' (body req) Hcol') as (g & Hfind & Hg & Heq).
  exists (doc_id g), (doc_data g). split; [done |]. split; [done |].
  cbn [validation_errors] in Hval. run. rewrite Hval, Hfind. reflexivity.
Qed.

Lemma ascii_collation_eq_refl (a : string) : ascii_collation_eq a a = true.
Proof. unfold ascii_collation_eq. apply String.eqb_refl. Qed.

Lemma genre_create_post_twice_witness :
  (∀ a, collation_eq ascii_lib a a = true)
  ∧ validation_errors ascii_lib KGenre (body create_fantasy) = []
  ∧ schema_ok (candidate ascii_lib KGenre env0 (body create_fantasy)) = true
  ∧ lookupK KGenre two_genres (fresh_id env0) = None
  ∧ ¬ genre_collision ascii_lib two_genres (body create_fantasy)
  ∧ ∃ id g,
      genres (genre_create_post ascii_lib env0 create_fantasy two_genres).1 !! id
      = Some g
      ∧ collation_eq ascii_lib (g_name g)
          (genre_chains ascii_lib (body create_fantasy)).1 = true
      ∧ genre_create_post ascii_lib env0 create_fantasy
          (genre_create_post ascii_lib env0 create_fantasy two_genres).1
        = ((genre_create_post ascii_lib env0 create_fantasy two_genres).1,
           [Redirect (detail_url KGenre id)]).
Proof.
  assert (H0 : ∀ a, collation_eq ascii_lib a a = true)
    by exact ascii_collation_eq_refl.
  assert (H1 : validation_errors ascii_lib KGenre (body create_fantasy) = [])
    by (vm_compute; reflexivity).
  assert (H2 : schema_ok (candidate ascii_lib KGenre env0 (body create_fantasy))
               = true) by (vm_compute; reflexivity).
  assert (H3 : lookupK KGenre two_genres (fresh_id env0) = None)
    by (vm_compute; reflexivity).
  assert (H4 : ¬ genre_collision ascii_lib two_genres (body create_fantasy))
    by (apply no_collision_by_search; vm_compute; reflexivity).
  split; [exact H0 |]. split; [exact H1 |]. split; [exact H2 |].
  split; [exact H3 |]. split; [exact H4 |].
  exact (genre_create_post_twice ascii_lib env0 env0 create_fantasy two_genres
           H0 H1 H2 H3 H4).
Defined.
